(** * msky-info: the metadata fetcher and renderer of [script.js]

    A shallow embedding of [escapeHTML], [getMeta] and [doSearch], and the
    properties of the specification proved (or refuted) over it.

    Strings are [string] (byte strings, the UTF-8 encoding of the script's
    text).  The five characters [escapeHTML] rewrites and the characters of
    the markup templates are ASCII, and an ASCII byte never occurs inside a
    multi-byte UTF-8 sequence, so replacing them byte-wise agrees with the
    script's replacement by UTF-16 code unit.

    Effects are explicit: a script is a function of the state of the page
    (clock, abort signals, calls of [fetch], console, input field, output
    region) that returns or throws.  The remote host is a function from a
    request to its reply and the delay of the reply in milliseconds, so
    that the deadline of the abort signal can be followed. *)

From stdpp Require Import base option list strings gmap pretty.
From Stdlib Require Import Ascii ZArith Lia.

(** ** Values of the script *)

Module Js.

(** What [JSON.parse] can produce, and [undefined] (what reading a missing
    property gives).  The script only tests a number for truthiness and
    prints it, so a number is given by the text [String] prints for it:
    the digit 0 for a zero of either sign, and for every other number what
    the engine's conversion of numbers to text gives (with a fraction or
    an exponent where the number has one). *)
#[warnings="-register-all"] Inductive JsVal : Type :=
  | JUndef
  | JNull
  | JBool (b : bool)
  | JNum (text : string)
  | JStr (s : string)
  | JArr (l : list JsVal)
  | JObj (m : gmap string JsVal).

(** [ToBoolean]: what [||], [&&], [?:] and [if] test.  Of the numbers of
    JSON only the zeros are falsy. *)
Definition truthy (v : JsVal) : bool :=
  match v with
  | JUndef | JNull => false
  | JBool b => b
  | JNum text => negb (String.eqb text "0")
  | JStr s => negb (String.eqb s "")
  | JArr _ | JObj _ => true
  end.

(** [a || b] *)
Definition or_ (a b : JsVal) : JsVal := if truthy a then a else b.

(** An exception value: the [name] and [message] the script reads. *)
Record JsError : Type := mkError { name : string; message : string }.

(** [new Error(msg)] *)
Definition Error (msg : string) : JsError := mkError "Error" msg.

(** How a computation completes. *)
Inductive Completion (A : Type) : Type :=
  | Returned (a : A)
  | Threw (e : JsError).
Arguments Returned {A} a.
Arguments Threw {A} e.

(** Sequencing of computations that may throw. *)
Definition bindC {A B} (c : Completion A) (k : A -> Completion B) : Completion B :=
  match c with
  | Returned a => k a
  | Threw e => Threw e
  end.

#[global] Instance completion_bind : MBind Completion :=
  fun A B k c => bindC c k.
#[global] Instance completion_ret : MRet Completion := @Returned.

(** The results of computations done one after the other, or the first
    exception. *)
Fixpoint allReturned {A} (l : list (Completion A)) : Completion (list A) :=
  match l with
  | [] => Returned []
  | c :: rest => a ← c; others ← allReturned rest; Returned (a :: others)
  end.

(** The [TypeError] of converting an object that has no usable [toString]
    and no usable [valueOf]; the wording is the engine's (V8's here), the
    script only displays it. *)
Definition cannotConvert : JsError :=
  mkError "TypeError" "Cannot convert object to primitive value".

(** [String(v)].  An object made by [JSON.parse] inherits [toString] and
    prints as [[object Object]], unless it has a property of its own named
    [toString]: the value of that property came out of JSON and cannot be
    called, [valueOf] (inherited, or just as little callable) gives no
    primitive value, and the conversion throws.  An array prints its
    elements joined by commas, [null] and [undefined] elements as the empty
    string and the others converted in turn, so it throws where the first
    of its elements does. *)
Fixpoint toString (v : JsVal) : Completion string :=
  match v with
  | JUndef => Returned "undefined"
  | JNull => Returned "null"
  | JBool true => Returned "true"
  | JBool false => Returned "false"
  | JNum text => Returned text
  | JStr s => Returned s
  | JArr l =>
      parts ← allReturned (map (fun x => match x with
                                  | JUndef | JNull => Returned ""
                                  | _ => toString x
                                  end) l);
      Returned (String.concat "," parts)
  | JObj m =>
      match m !! "toString" with
      | Some _ => Threw cannotConvert
      | None => Returned "[object Object]"
      end
  end.

(** The text of the [TypeError] of reading a property of [null] or
    [undefined] ([what]); the wording is the engine's (V8's here), the
    script only displays it. *)
Definition no_property_message (what key : string) : string :=
  "Cannot read properties of " +:+ what +:+ " (reading '" +:+ key +:+ "')".

(** The property [key] of an object, [undefined] when it has none. *)
Definition prop (m : gmap string JsVal) (key : string) : JsVal :=
  default JUndef (m !! key).

(** [v.key] for a [v] that came out of [JSON.parse] (or is [undefined]):
    an object gives its own property, [null] and [undefined] throw a
    [TypeError], and no other JSON value has one of the properties the
    script reads. *)
Definition getProp (v : JsVal) (key : string) : Completion JsVal :=
  match v with
  | JObj m => Returned (prop m key)
  | JNull => Threw (mkError "TypeError" (no_property_message "null" key))
  | JUndef => Threw (mkError "TypeError" (no_property_message "undefined" key))
  | _ => Returned JUndef
  end.

End Js.
Export Js.

(** ** [escapeHTML] (script.js, lines 8-16) *)

(** The double quote and the line feed, by their codes. *)
Definition dquote : ascii := "034"%char.
Definition dq : string := String dquote "".
Definition nl : string := String "010"%char "".

(** The replacement table of the callback. *)
Definition entity (c : ascii) : string :=
  if Ascii.eqb c "&"%char then "&amp;"
  else if Ascii.eqb c "<"%char then "&lt;"
  else if Ascii.eqb c ">"%char then "&gt;"
  else if Ascii.eqb c dquote then "&quot;"
  else if Ascii.eqb c "'"%char then "&#39;"
  else String c "".

(** [s.replace(re, c => table[c])], [re] the global character class of the
    five characters. *)
Fixpoint replaceSpecials (s : string) : string :=
  match s with
  | "" => ""
  | String c r => entity c +:+ replaceSpecials r
  end.

(** [escapeHTML(str)]: [String(str || empty)] with the five characters
    replaced; it throws when the conversion to a string does. *)
Definition escapeHTML (str : JsVal) : Completion string :=
  s ← toString (or_ str (JStr ""));
  Returned (replaceSpecials s).

(** ** The renderer of [doSearch] (script.js, lines 79-137 and 143-154) *)

(** [a || b] over property reads. *)
Definition orC (a b : Completion JsVal) : Completion JsVal :=
  v ← a; if truthy v then Returned v else b.

(** The [health] object of the success path. *)
Record Health : Type := mkHealth {
  host : string;
  reachable : bool;
  softwareName : JsVal;
  version : JsVal;
  description : JsVal;
  adminName : JsVal;
  adminEmail : JsVal;
  contactLink : JsVal;
}.

(** Lines 80-89. *)
Definition buildHealth (host : string) (meta : JsVal) : Completion Health :=
  softwareName ← orC (getProp meta "softwareName")
                      (orC (getProp meta "name") (Returned JNull));
  version ← orC (getProp meta "version") (Returned JNull);
  description ← orC (getProp meta "description") (Returned JNull);
  adminName ← orC (getProp meta "maintainerName") (Returned JNull);
  adminEmail ← orC (getProp meta "maintainerEmail") (Returned JNull);
  contactLink ← orC (getProp meta "inquiryUrl")
                     (orC (getProp meta "repositoryUrl") (Returned JNull));
  Returned (mkHealth host true softwareName version description
                     adminName adminEmail contactLink).

(** A template literal is a function of the texts interpolated into it;
    the interpolated expressions are evaluated from left to right before
    it. *)

(** The anchor the templates of lines 97 and 102-105 share. *)
Definition anchorMarkup (href text : string) : string :=
  "<a href=" +:+ dq +:+ href +:+ dq +:+ " target=" +:+ dq +:+ "_blank"
  +:+ dq +:+ " rel=" +:+ dq +:+ "noopener" +:+ dq +:+ ">" +:+ text +:+ "</a>".

(** The escaped value both as the link target and as the link text. *)
Definition anchor (v : JsVal) : Completion string :=
  href ← escapeHTML v;
  text ← escapeHTML v;
  Returned (anchorMarkup href text).

(** Lines 92-94. *)
Definition descriptionMarkup (text : string) : string :=
  "<p><strong>Description:</strong></p><p class=" +:+ dq +:+ "description"
  +:+ dq +:+ ">" +:+ text +:+ "</p>".

Definition descHtml (health : Health) : Completion string :=
  if truthy (description health)
  then text ← escapeHTML (description health); Returned (descriptionMarkup text)
  else Returned "<p><strong>Description:</strong> N/A</p>".

(** Lines 96-98. *)
Definition contactLinkHtml (health : Health) : Completion string :=
  if truthy (contactLink health) then anchor (contactLink health) else Returned "N/A".

(** Lines 102-105: one optional link line of the server details, for the
    value [v] of the property. *)
Definition linkMarkup (label link : string) : string :=
  "<p><strong>" +:+ label +:+ ":</strong> " +:+ link +:+ "</p>".

Definition linkLine (label : string) (v : JsVal) : Completion string :=
  if truthy v
  then link ← anchor v; Returned (linkMarkup label link)
  else Returned "".

Definition metaLink (label : string) (meta : JsVal) (key : string) : Completion string :=
  v ← getProp meta key;
  linkLine label v.

Definition metaIcon (meta : JsVal) := metaLink "Icon" meta "iconUrl".
Definition metaBanner (meta : JsVal) := metaLink "Banner" meta "bannerUrl".
Definition metaTos (meta : JsVal) := metaLink "Terms of Service" meta "tosUrl".
Definition metaPrivacy (meta : JsVal) := metaLink "Privacy Policy" meta "privacyPolicyUrl".

(** Line 106. *)
Definition maxLengthMarkup (text : string) : string :=
  "<p><strong>Max Note Length:</strong> " +:+ text +:+ "</p>".

Definition maxLengthLine (v : JsVal) : Completion string :=
  if truthy v
  then text ← escapeHTML v; Returned (maxLengthMarkup text)
  else Returned "".

Definition metaMaxLength (meta : JsVal) : Completion string :=
  v ← getProp meta "maxNoteTextLength";
  maxLengthLine v.

(** Lines 112-114: the [forEach] appending one item per rule to what has
    been put together so far. *)
Fixpoint appendRules (html : string) (rules : list JsVal) : Completion string :=
  match rules with
  | [] => Returned html
  | rule :: rest =>
      text ← escapeHTML rule;
      appendRules (html +:+ "<li>" +:+ text +:+ "</li>") rest
  end.

(** [Array.isArray(v)] and, for an array, its elements. *)
Definition isArray (v : JsVal) : bool :=
  match v with JArr _ => true | _ => false end.

Definition elements (v : JsVal) : list JsVal :=
  match v with JArr l => l | _ => [] end.

(** Lines 109-116, for the value of [meta.serverRules]. *)
Definition rulesHtml (serverRules : JsVal) : Completion string :=
  if truthy serverRules && isArray serverRules && (0 <? length (elements serverRules))
  then html ← appendRules ("<p><strong>Server Rules:</strong></p><ul class=" +:+ dq
                            +:+ "rules" +:+ dq +:+ ">") (elements serverRules);
       Returned (html +:+ "</ul>")
  else Returned "".

Definition metaRulesHtml (meta : JsVal) : Completion string :=
  serverRules ← getProp meta "serverRules";
  rulesHtml serverRules.

(** A line break of a template literal and the indentation after it. *)
Definition br : string := nl +:+ "      ".

(** Lines 119-135: the template up to its last interpolation. *)
Definition onlineHead
    (hostText desc versionText adminText emailText contact : string)
    (maxLength icon banner tos privacy : string) : string :=
  br +:+ "<p><strong>Host:</strong> " +:+ hostText +:+ "</p>"
  +:+ br +:+ "<p><strong>Status:</strong> <span style=" +:+ dq +:+ "color:#7ee787;"
  +:+ dq +:+ ">Online</span></p>"
  +:+ br +:+ desc
  +:+ br +:+ "<p><strong>Version:</strong> " +:+ versionText +:+ "</p>"
  +:+ br +:+ "<p><strong>Admin:</strong> " +:+ adminText +:+ "</p>"
  +:+ br +:+ "<p><strong>Email:</strong> " +:+ emailText +:+ "</p>"
  +:+ br +:+ "<p><strong>Contact:</strong> " +:+ contact +:+ "</p>"
  +:+ br
  +:+ br +:+ "<hr>"
  +:+ br
  +:+ br +:+ "<p style=" +:+ dq +:+ "font-weight:bold; opacity: 0.8;" +:+ dq
  +:+ ">--- Server Details (from /api/meta) ---</p>"
  +:+ br +:+ maxLength
  +:+ br +:+ icon
  +:+ br +:+ banner
  +:+ br +:+ tos
  +:+ br +:+ privacy
  +:+ br.

(** Lines 119-137: the markup assigned to [resultDiv.innerHTML], the rules
    list being the last interpolation of the template. *)
Definition onlineMarkup
    (hostText desc versionText adminText emailText contact : string)
    (maxLength icon banner tos privacy rules : string) : string :=
  onlineHead hostText desc versionText adminText emailText contact
             maxLength icon banner tos privacy
  +:+ rules +:+ nl +:+ "    ".

(** Lines 79-137, from the metadata to the markup: the health object, the
    parts computed ahead of the template in the order of the script, then
    the interpolations of the template itself. *)
Definition renderOnline (hostname : string) (meta : JsVal) : Completion string :=
  health ← buildHealth hostname meta;
  desc ← descHtml health;
  contact ← contactLinkHtml health;
  icon ← metaIcon meta;
  banner ← metaBanner meta;
  tos ← metaTos meta;
  privacy ← metaPrivacy meta;
  maxLength ← metaMaxLength meta;
  rules ← metaRulesHtml meta;
  hostText ← escapeHTML (JStr (host health));
  versionText ← escapeHTML (or_ (version health) (JStr "N/A"));
  adminText ← escapeHTML (or_ (adminName health) (JStr "N/A"));
  emailText ← escapeHTML (or_ (adminEmail health) (JStr "N/A"));
  Returned (onlineMarkup hostText desc versionText adminText emailText contact
                         maxLength icon banner tos privacy rules).

(** Lines 150-154: the template of the failure path. *)
Definition offlineMarkup (hostText errorText : string) : string :=
  br +:+ "<p><strong>Host:</strong> " +:+ hostText +:+ "</p>"
  +:+ br +:+ "<p><strong>Status:</strong> <span style=" +:+ dq +:+ "color:#f88;"
  +:+ dq +:+ ">Offline</span></p>"
  +:+ br +:+ "<p><strong>Error:</strong> " +:+ errorText +:+ "</p>"
  +:+ nl +:+ "    ".

(** Lines 143-154: the markup of the failure path, [error] being
    [e.message]. *)
Definition renderOffline (hostname : string) (error : string) : Completion string :=
  hostText ← escapeHTML (JStr hostname);
  errorText ← escapeHTML (JStr error);
  Returned (offlineMarkup hostText errorText).

(** ** The page, the console and the network *)

(** What the output region holds: the text given to [textContent] or the
    markup given to [innerHTML]. *)
Inductive Content : Type :=
  | Text (s : string)
  | Markup (s : string).

Inductive Method : Type := POST | GET.

(** One call of [fetch]: the URL, the options of the call, and the abort
    signal passed (its index among the signals created so far). *)
Record Request : Type := mkRequest {
  method : Method;
  url : string;
  headers : list (string * string);
  body : option string;
  signal : nat;
}.

(** A response: its status and what its [json()] settles to. *)
Record Response : Type := mkResponse {
  status : nat;
  json : Completion JsVal;
}.

(** [resp.ok] *)
Definition ok (resp : Response) : bool :=
  (200 <=? status resp) && (status resp <=? 299).

(** What the remote host does with a request, left to itself: after
    [latency] milliseconds the request settles to [outcome], a response or
    a transport error. *)
Record Reply : Type := mkReply {
  latency : nat;
  outcome : Completion Response;
}.

Definition Network : Type := Method -> string -> Reply.

(** The state the script runs in.  [now] is the clock in milliseconds,
    [signals] the deadline of each abort signal created, [requests] the
    calls of [fetch] in order, [console] the calls of [console.error],
    [hostInput] the value of the input field and [resultDiv] the output
    region. *)
Record World : Type := mkWorld {
  now : nat;
  signals : list nat;
  requests : list Request;
  console : list (list string);
  hostInput : string;
  resultDiv : Content;
}.

(** Computations of the script: they read and change the world and return
    or throw. *)
Definition Script (A : Type) : Type := World -> Completion A * World.

Definition retS {A} (a : A) : Script A := fun w => (Returned a, w).
Definition throwS {A} (e : JsError) : Script A := fun w => (Threw e, w).
Definition bindS {A B} (c : Script A) (k : A -> Script B) : Script B :=
  fun w => match c w with
           | (Returned a, w') => k a w'
           | (Threw e, w') => (Threw e, w')
           end.

#[global] Instance script_bind : MBind Script := fun A B k c => bindS c k.
#[global] Instance script_ret : MRet Script := @retS.

(** [try { body } catch (e) { handler }] *)
Definition tryCatch {A} (body : Script A) (handler : JsError -> Script A) : Script A :=
  fun w => match body w with
           | (Returned a, w') => (Returned a, w')
           | (Threw e, w') => handler e w'
           end.

(** Settling a computation that touches nothing. *)
Definition liftC {A} (c : Completion A) : Script A := fun w => (c, w).

(** [console.error(...args)] *)
Definition consoleError (args : list string) : Script unit :=
  fun w => (Returned tt,
            mkWorld (now w) (signals w) (requests w) (console w ++ [args])
                    (hostInput w) (resultDiv w)).

(** Assignments to [resultDiv.textContent] and [resultDiv.innerHTML]. *)
Definition setResult (c : Content) : Script unit :=
  fun w => (Returned tt,
            mkWorld (now w) (signals w) (requests w) (console w) (hostInput w) c).

(** [AbortSignal.timeout(ms)]: a new signal that aborts [ms] milliseconds
    from now. *)
Definition abortSignalTimeout (ms : nat) : Script nat :=
  fun w => (Returned (length (signals w)),
            mkWorld (now w) (signals w ++ [now w + ms]) (requests w) (console w)
                    (hostInput w) (resultDiv w)).

(** The exception of a signal made by [AbortSignal.timeout]: a
    [DOMException] named [TimeoutError] (the message is the engine's). *)
Definition timeoutError : JsError := mkError "TimeoutError" "signal timed out".

(** How a request settles under a signal of the given deadline, and when:
    at once if the signal has already aborted, at the deadline if the reply
    would come later, and else as the host replies. *)
Definition settle (reply : Reply) (now deadline : nat) : Completion Response * nat :=
  if deadline <=? now then (Threw timeoutError, now)
  else if now + latency reply <? deadline then (outcome reply, now + latency reply)
  else (Threw timeoutError, deadline).

(** [await fetch(url, options)]: the call is recorded, then the clock moves
    to when it settles.  The signal of a request is one that was created
    ([getMeta] passes the one it has just made); for an index that names no
    signal the deadline counts as passed. *)
Definition fetch (net : Network) (req : Request) : Script Response :=
  fun w =>
    let deadline := default (now w) (signals w !! signal req) in
    let '(result, t) := settle (net (method req) (url req)) (now w) deadline in
    (result,
     mkWorld t (signals w) (requests w ++ [req]) (console w) (hostInput w) (resultDiv w)).

(** ** [getMeta] (script.js, lines 23-63) *)

Definition metaUrl (host : string) : string := "https://" +:+ host +:+ "/api/meta".

(** The options of the two calls of [fetch]; [JSON.stringify] of the empty
    object is the two braces. *)
Definition postRequest (host : string) (signal : nat) : Request :=
  mkRequest POST (metaUrl host) [("Content-Type", "application/json")] (Some "{}") signal.

Definition getRequest (host : string) (signal : nat) : Request :=
  mkRequest GET (metaUrl host) [] None signal.

(** How control leaves the [try] block without an exception: by the
    [return] of line 39, or by falling out of its end. *)
Inductive TryExit : Type :=
  | ReturnJson (respPost : Response)
  | FallThrough.

(** Lines 30-43, the body of the [try]. *)
Definition postAttempt (net : Network) (host : string) (signal : nat) : Script TryExit :=
  respPost ← fetch net (postRequest host signal);
  if ok respPost then mret (ReturnJson respPost)
  else if negb (status respPost =? 405) && negb (status respPost =? 404)
  then throwS (Error ("POST failed (" +:+ pretty (status respPost) +:+ ")"))
  else mret FallThrough.

(** Lines 44-51, the [catch]: the exception is logged and dropped. *)
Definition postCatch (host : string) (e : JsError) : Script TryExit :=
  (if String.eqb (name e) "AbortError"
   then consoleError ["POST attempt timed out for " +:+ host]
   else consoleError ["POST attempt failed for " +:+ host +:+ ": " +:+ message e]);;
  mret FallThrough.

(** Lines 54-62, the second attempt. *)
Definition getAttempt (net : Network) (host : string) (signal : nat) : Script JsVal :=
  respGet ← fetch net (getRequest host signal);
  if negb (ok respGet)
  then throwS (Error ("GET failed (" +:+ pretty (status respGet) +:+ ")"))
  else liftC (json respGet).

(** [getMeta(host)].  Line 39 returns the promise of [respPost.json()]
    without awaiting it, so the promise settles after control has left the
    [try]: what it settles to is what [getMeta] settles to, and the [catch]
    does not see it. *)
Definition getMeta (net : Network) (host : string) : Script JsVal :=
  signal ← abortSignalTimeout 5000;
  exit ← tryCatch (postAttempt net host signal) (postCatch host);
  match exit with
  | ReturnJson respPost => liftC (json respPost)
  | FallThrough => getAttempt net host signal
  end.

(** ** [doSearch] (script.js, lines 69-156) *)

(** The white space and line terminators [trim] removes, in UTF-8: the
    code points 9 to 13, 32, 160, 5760, 8192 to 8202, 8232, 8233, 8239,
    8287, 12288 and 65279. *)
Definition bytes (l : list nat) : string :=
  fold_right (fun n s => String (ascii_of_nat n) s) "" l.

Definition whiteSpace : list string :=
  map bytes
    ([[9]; [10]; [11]; [12]; [13]; [32]; [194; 160]; [225; 154; 128]]
     ++ map (fun n => [226; 128; n]) (seq 128 11)
     ++ [[226; 128; 168]; [226; 128; 169]; [226; 128; 175]; [226; 129; 159];
         [227; 128; 128]; [239; 187; 191]]).

(** [s] without the prefix [p], if it starts with it. *)
Fixpoint stripPrefix (p s : string) : option string :=
  match p, s with
  | "", _ => Some s
  | String a p', String b s' => if Ascii.eqb a b then stripPrefix p' s' else None
  | String _ _, "" => None
  end.

(** [s] without the first of [pats] it starts with. *)
Fixpoint stripOne (pats : list string) (s : string) : option string :=
  match pats with
  | [] => None
  | p :: rest =>
      match stripPrefix p s with
      | Some r => Some r
      | None => stripOne rest s
      end
  end.

(** Removing leading occurrences of [pats], at most [fuel] of them. *)
Fixpoint stripAll (pats : list string) (fuel : nat) (s : string) : string :=
  match fuel with
  | 0 => s
  | S fuel' =>
      match stripOne pats s with
      | Some r => stripAll pats fuel' r
      | None => s
      end
  end.

Definition trimStart (s : string) : string := stripAll whiteSpace (String.length s) s.

Definition trimEnd (s : string) : string :=
  String.rev (stripAll (map String.rev whiteSpace) (String.length s) (String.rev s)).

(** [s.trim()] *)
Definition trim (s : string) : string := trimEnd (trimStart s).

(** The text shown while the request runs (line 73). *)
Definition loadingText : string := "取得中...".

(** Lines 75-137, the body of the [try]. *)
Definition searchBody (net : Network) (host : string) : Script unit :=
  meta ← getMeta net host;
  markup ← liftC (renderOnline host meta);
  setResult (Markup markup).


(** Lines 139-155, the [catch]. *)
Definition searchCatch (host : string) (e : JsError) : Script unit :=
  consoleError ["Client-side error for " +:+ host +:+ ":"; message e];;
  markup ← liftC (renderOffline host (message e));
  setResult (Markup markup).

(** [doSearch()] *)
Definition doSearch (net : Network) : Script unit :=
  fun w =>
    let host := trim (hostInput w) in
    if String.eqb host "" then (Returned tt, w)
    else (setResult (Text loadingText);;
          tryCatch (searchBody net host) (searchCatch host)) w.

(** ** Searching a text *)

(** [s.startsWith(p)] and [s.includes(p)], used to state what the markup
    contains. *)
Fixpoint startsWith (p s : string) : bool :=
  match p with
  | "" => true
  | String a p' =>
      match s with
      | "" => false
      | String b s' => Ascii.eqb a b && startsWith p' s'
      end
  end.

Fixpoint includes (p s : string) : bool :=
  startsWith p s || match s with
                    | "" => false
                    | String _ r => includes p r
                    end.

(** [s] ends with the beginning of an occurrence of [p]: a non-empty end
    of [s] is a beginning of [p], and not all of it. *)
Fixpoint dangles (p s : string) : bool :=
  match s with
  | "" => false
  | String _ r => (startsWith s p && negb (String.eqb s p)) || dangles p r
  end.

(** [p] neither occurs in [s] nor has begun at its end; such texts can be
    put one after the other and [p] still does not occur. *)
Definition clean (p s : string) : bool := negb (includes p s) && negb (dangles p s).

(** An occurrence, as a decomposition of the text. *)
Definition Occurs (p s : string) : Prop := exists l r, s = l +:+ p +:+ r.

Definition Dangling (p s : string) : Prop :=
  exists l t v, s = l +:+ t /\ p = t +:+ v /\ t <> "" /\ v <> "".

(** The four characters that open or close markup and attribute values. *)
Definition markupChars : list ascii := ["<"%char; ">"%char; dquote; "'"%char].


(** ** What the renderer returns *)

(** The values [String] converts without throwing: all but the objects with
    a [toString] of their own and the arrays that hold one. *)
Fixpoint printable (v : JsVal) : bool :=
  match v with
  | JArr l => forallb printable l
  | JObj m => match m !! "toString" with Some _ => false | None => true end
  | _ => true
  end.

(** The text [String] gives for such a value. *)
Fixpoint toText (v : JsVal) : string :=
  match v with
  | JUndef => "undefined"
  | JNull => "null"
  | JBool true => "true"
  | JBool false => "false"
  | JNum text => text
  | JStr s => s
  | JArr l =>
      String.concat "," (map (fun x => match x with
                          | JUndef | JNull => ""
                          | _ => toText x
                          end) l)
  | JObj _ => "[object Object]"
  end.

(** What [escapeHTML] returns when it returns, and with it what each part
    of the renderer returns: the templates with the escaped texts in. *)
Definition escapedText (str : JsVal) : string :=
  replaceSpecials (toText (or_ str (JStr ""))).

Definition anchorText (v : JsVal) : string :=
  Eval cbv beta delta [anchorMarkup] in anchorMarkup (escapedText v) (escapedText v).

Definition descText (health : Health) : string :=
  Eval cbv beta delta [descriptionMarkup] in
  if truthy (description health)
  then descriptionMarkup (escapedText (description health))
  else "<p><strong>Description:</strong> N/A</p>".

Definition contactText (health : Health) : string :=
  if truthy (contactLink health) then anchorText (contactLink health) else "N/A".

Definition linkText (label : string) (v : JsVal) : string :=
  Eval cbv beta delta [linkMarkup] in
  if truthy v then linkMarkup label (anchorText v) else "".

Definition maxLengthText (v : JsVal) : string :=
  Eval cbv beta delta [maxLengthMarkup] in
  if truthy v then maxLengthMarkup (escapedText v) else "".

Definition appendText (acc : string) (rules : list JsVal) : string :=
  fold_left (fun html rule => html +:+ "<li>" +:+ escapedText rule +:+ "</li>") rules acc.

Definition rulesText (serverRules : JsVal) : string :=
  if truthy serverRules && isArray serverRules && (0 <? length (elements serverRules))
  then appendText ("<p><strong>Server Rules:</strong></p><ul class=" +:+ dq
                   +:+ "rules" +:+ dq +:+ ">") (elements serverRules)
       +:+ "</ul>"
  else "".

Definition headText (health : Health)
    (maxLength icon banner tos privacy : string) : string :=
  Eval cbv beta delta [onlineHead] in
  onlineHead (escapedText (JStr (host health))) (descText health)
             (escapedText (or_ (version health) (JStr "N/A")))
             (escapedText (or_ (adminName health) (JStr "N/A")))
             (escapedText (or_ (adminEmail health) (JStr "N/A")))
             (contactText health) maxLength icon banner tos privacy.

Definition markupText (health : Health)
    (maxLength icon banner tos privacy rules : string) : string :=
  headText health maxLength icon banner tos privacy +:+ rules +:+ nl +:+ "    ".

Definition offlineText (host : string) (error : string) : string :=
  Eval cbv beta delta [offlineMarkup] in
  offlineMarkup (escapedText (JStr host)) (escapedText (JStr error)).

(** The health object and the markup for a metadata object [m], the
    property reads done. *)
Definition healthOf (host : string) (m : gmap string JsVal) : Health :=
  mkHealth host true
    (or_ (prop m "softwareName") (or_ (prop m "name") JNull))
    (or_ (prop m "version") JNull)
    (or_ (prop m "description") JNull)
    (or_ (prop m "maintainerName") JNull)
    (or_ (prop m "maintainerEmail") JNull)
    (or_ (prop m "inquiryUrl") (or_ (prop m "repositoryUrl") JNull)).


(** One item of the rules list, and the list for the rules [rules]. *)
Definition ruleItem (rule : JsVal) : string := "<li>" +:+ escapedText rule +:+ "</li>".

Definition flatten (l : list string) : string := fold_right String.append "" l.


Definition markupOf (host : string) (m : gmap string JsVal) : string :=
  markupText (healthOf host m)
    (maxLengthText (prop m "maxNoteTextLength"))
    (linkText "Icon" (prop m "iconUrl"))
    (linkText "Banner" (prop m "bannerUrl"))
    (linkText "Terms of Service" (prop m "tosUrl"))
    (linkText "Privacy Policy" (prop m "privacyPolicyUrl"))
    (rulesText (prop m "serverRules")).

(** The rules are converted only when they are an array. *)
Definition rulesPrintable (serverRules : JsVal) : bool :=
  negb (isArray serverRules) || printable serverRules.

(** The metadata objects whose rendering converts printable values only,
    in the order of the conversions. *)
Definition renders (m : gmap string JsVal) : bool :=
  printable (description (healthOf "" m))
  && printable (contactLink (healthOf "" m))
  && printable (prop m "iconUrl")
  && printable (prop m "bannerUrl")
  && printable (prop m "tosUrl")
  && printable (prop m "privacyPolicyUrl")
  && printable (prop m "maxNoteTextLength")
  && rulesPrintable (prop m "serverRules")
  && printable (version (healthOf "" m))
  && printable (adminName (healthOf "" m))
  && printable (adminEmail (healthOf "" m)).

(** The first character of a text, when it is not one of [p]. *)
Definition headOutside (p a : string) : bool :=
  match a with
  | "" => false
  | String c _ => negb (includes (String c "") p)
  end.

(** Values that are equal, or both falsy. *)
Definition sameWhenTruthy (a b : JsVal) : Prop :=
  a = b \/ (truthy a = false /\ truthy b = false).

(** The properties the markup is built from. *)
Definition renderedKeys : list string :=
  ["version"; "description"; "maintainerName"; "maintainerEmail"; "inquiryUrl";
   "repositoryUrl"; "maxNoteTextLength"; "iconUrl"; "bannerUrl"; "tosUrl";
   "privacyPolicyUrl"; "serverRules"].

(** A result that is there when the values converted are printable, the
    conversion throwing otherwise. *)
Definition whenPrintable {A} (b : bool) (a : A) : Completion A :=
  if b then Returned a else Threw cannotConvert.

(** ** Notions of the properties: the two attempts *)

(** The POST attempt did not give a 2xx response: it gave another status or
    threw. *)
Definition postFailed (resP : Completion Response) : bool :=
  match resP with
  | Returned r => negb (ok r)
  | Threw _ => true
  end.

(** What the [catch] of the POST attempt writes to the console. *)
Definition postLog (host : string) (resP : Completion Response) : list (list string) :=
  match resP with
  | Returned r =>
      if negb (status r =? 405) && negb (status r =? 404)
      then [["POST attempt failed for " +:+ host +:+ ": POST failed ("
             +:+ pretty (status r) +:+ ")"]]
      else []
  | Threw e =>
      if String.eqb (name e) "AbortError"
      then [["POST attempt timed out for " +:+ host]]
      else [["POST attempt failed for " +:+ host +:+ ": " +:+ message e]]
  end.

(** What [getMeta] settles to once the GET attempt has settled to [resG]. *)
Definition getOutcome (resG : Completion Response) : Completion JsVal :=
  match resG with
  | Returned r =>
      if ok r then json r
      else Threw (Error ("GET failed (" +:+ pretty (status r) +:+ ")"))
  | Threw e => Threw e
  end.

(** The world with another content of the output region, and with one more
    console line. *)
Definition withResult (c : Content) (w : World) : World :=
  mkWorld (now w) (signals w) (requests w) (console w) (hostInput w) c.

Definition withConsole (args : list string) (w : World) : World :=
  mkWorld (now w) (signals w) (requests w) (console w ++ [args]) (hostInput w)
          (resultDiv w).

(** What the [catch] of [doSearch] leaves. *)
Definition offlineWorld (host : string) (e : JsError) (w : World) : World :=
  withResult (Markup (offlineText host (message e)))
    (withConsole ["Client-side error for " +:+ host +:+ ":"; message e] w).

(** A text made of white space only. *)
Definition WhitespaceOnly (s : string) : Prop :=
  exists l, Forall (fun p => p ∈ whiteSpace) l /\ s = flatten l.

(** ** Sample metadata and hosts *)

(** The metadata of the specification's example. *)
Definition metaFoo : gmap string JsVal :=
  <["softwareName" := JStr "Foo"]> (<["version" := JStr "1.0"]> ∅).

(** A page where the host name was typed with blanks around it. *)
Definition world0 : World := mkWorld 0 [] [] [] " example.com " (Text "").

(** The error of [json()] on a body that is a page of markup. *)
Definition syntaxError : JsError := mkError "SyntaxError" "Unexpected token <".

(** A host that answers a POST with the metadata after 120 ms. *)
Definition netPostOk : Network :=
  fun _ _ => mkReply 120 (Returned (mkResponse 200 (Returned (JObj metaFoo)))).

(** A host that answers a POST with 200 and a page that is not JSON, and
    would answer a GET with the metadata. *)
Definition netMalformed : Network :=
  fun m _ =>
    match m with
    | POST => mkReply 120 (Returned (mkResponse 200 (Threw syntaxError)))
    | GET => mkReply 120 (Returned (mkResponse 200 (Returned (JObj metaFoo))))
    end.

(** A host without the POST endpoint whose GET takes [ms] milliseconds,
    the 404 taking 3 seconds. *)
Definition netGetOnly (ms : nat) : Network :=
  fun m _ =>
    match m with
    | POST => mkReply 3000 (Returned (mkResponse 404 (Threw syntaxError)))
    | GET => mkReply ms (Returned (mkResponse 200 (Returned (JObj metaFoo))))
    end.

(** A host that fails both requests. *)
Definition netDown : Network :=
  fun m _ =>
    match m with
    | POST => mkReply 10 (Returned (mkResponse 500 (Threw syntaxError)))
    | GET => mkReply 10 (Returned (mkResponse 503 (Threw syntaxError)))
    end.

(** The five characters [escapeHTML] replaces. *)
Definition specialChars : list ascii := "&"%char :: markupChars.

(** ** Counting characters *)

(** How often the character [c] stands in [s]. *)
Fixpoint countChar (c : ascii) (s : string) : nat :=
  match s with
  | "" => 0
  | String x r => (if Ascii.eqb c x then 1 else 0) + countChar c r
  end.

(** The opening angle brackets of [s] that are not matched by a closing
    one, as a difference, and whether its double quotes pair up. *)
Definition bracketExcess (s : string) : Z :=
  Z.of_nat (countChar "<" s) - Z.of_nat (countChar ">" s).

Definition quotesPaired (s : string) : bool := Nat.even (countChar dquote s).

(** ** The two status badges *)

Definition onlineBadge : string :=
  "<span style=" +:+ dq +:+ "color:#7ee787;" +:+ dq +:+ ">Online</span>".

Definition offlineBadge : string :=
  "<span style=" +:+ dq +:+ "color:#f88;" +:+ dq +:+ ">Offline</span>".

(** ** The listeners (script.js, lines 158-164) *)

(** What the user does on the page.  Typing is the browser's part: it
    sets the value of the input field. *)
Inductive Event : Type :=
  | Click
  | KeyDown (key : string)
  | Typed (value : string).

(** Lines 160-164, the keydown listener of the input field.  It calls
    [doSearch()] without awaiting it; here the search it starts runs to its
    end before the next event is taken. *)
Definition keydownListener (net : Network) (key : string) : Script unit :=
  if String.eqb key "Enter" then doSearch net else mret tt.

(** The page with another value in the input field. *)
Definition withHost (value : string) (w : World) : World :=
  mkWorld (now w) (signals w) (requests w) (console w) value (resultDiv w).

(** One event: line 159 makes [doSearch] the click handler of the
    button. *)
Definition dispatch (net : Network) (ev : Event) : Script unit :=
  match ev with
  | Click => doSearch net
  | KeyDown key => keydownListener net key
  | Typed value => fun w => (Returned tt, withHost value w)
  end.

(** A run of events, one after the other. *)
Definition session (net : Network) (evs : list Event) (w : World) : World :=
  fold_left (fun w ev => snd (dispatch net ev w)) evs w.

(** Every call of [fetch] recorded carries a signal that was created. *)
Definition signalsKnown (w : World) : Prop :=
  Forall (fun req => signal req < length (signals w)) (requests w).

(** The event starts a search. *)
Definition startsSearch (ev : Event) : bool :=
  match ev with
  | Click => true
  | KeyDown key => String.eqb key "Enter"
  | Typed _ => false
  end.

(** The value of the input field after the events, from [value]. *)
Definition lastTyped (evs : list Event) (value : string) : string :=
  fold_left (fun v ev => match ev with Typed v' => v' | _ => v end) evs value.

(** ** The closed parts of the success template *)

(** The literal parts of the success template that stand whatever the
    metadata: all but the openings of the optional lines. *)
Definition fixedParts : list string :=
  [br; "<p><strong>Host:</strong> "; "</p>";
   "<p><strong>Status:</strong> <span style="; dq; "color:#7ee787;";
   ">Online</span></p>";
   "<p><strong>Version:</strong> "; "<p><strong>Admin:</strong> ";
   "<p><strong>Email:</strong> "; "<p><strong>Contact:</strong> "; "N/A";
   "<a href="; " target="; "_blank"; " rel="; "noopener"; ">"; "</a>";
   "<hr>"; "<p style="; "font-weight:bold; opacity: 0.8;";
   ">--- Server Details (from /api/meta) ---</p>";
   "<p><strong>Server Rules:</strong></p><ul class="; "rules"; "<li>"; "</li>"; "</ul>";
   nl; "    "; ""].

Definition fixedClean (p : string) : bool := forallb (clean p) fixedParts.

(** The opening of the paragraph that holds the description. *)
Definition descriptionOpen : string := "<p class=" +:+ dq +:+ "description" +:+ dq +:+ ">".


(** The requests made with the method POST. *)
Definition isPost (req : Request) : bool :=
  match method req with POST => true | GET => false end.

(** The host names searched for in a run of events that starts with
    [value] in the input field: at each click and each Enter, what is in
    the field then, trimmed, when that is not empty. *)
Fixpoint searched (evs : list Event) (value : string) : list string :=
  match evs with
  | [] => []
  | Typed value' :: rest => searched rest value'
  | ev :: rest =>
      if startsSearch ev && negb (String.eqb (trim value) "")
      then trim value :: searched rest value
      else searched rest value
  end.

(** * Properties *)

(** ** Texts: concatenation and occurrences *)

(** Concatenation computes on a text that starts with known characters. *)
#[local] Arguments String.append !_ _ : simpl nomatch.

Section Texts.

Implicit Types (p s a b l r : string) (c : ascii).

Lemma sapp_nil_r s : s +:+ "" = s.
Proof. induction s as [|c s IH]; simpl; [reflexivity | by rewrite IH]. Qed.

Lemma sapp_assoc a b s : (a +:+ b) +:+ s = a +:+ b +:+ s.
Proof. induction a as [|c a IH]; simpl; [reflexivity | by rewrite IH]. Qed.

Lemma sapp_eq_nil a b : a +:+ b = "" -> a = "" /\ b = "".
Proof. destruct a; simpl; [auto | discriminate]. Qed.

Lemma sapp_id_r s b : s +:+ b = s -> b = "".
Proof.
  intros H. rewrite <- (sapp_nil_r s) in H at 2. by apply String.app_inj in H.
Qed.

(** Two decompositions of one text: one of the left parts extends the
    other. *)
Lemma sapp_eq_app a b l r :
  a +:+ b = l +:+ r ->
  (exists k, a = l +:+ k /\ r = k +:+ b) \/ (exists k, l = a +:+ k /\ b = k +:+ r).
Proof.
  revert l. induction a as [|c a IH]; intros l H; simpl in H.
  - right. exists l. by subst.
  - destruct l as [|c' l]; simpl in H.
    + left. exists (String c a). by subst.
    + injection H as -> H. destruct (IH _ H) as [[k [-> ->]]|[k [-> ->]]].
      * left. by exists k.
      * right. by exists k.
Qed.

Lemma startsWith_iff p s : startsWith p s = true <-> exists r, s = p +:+ r.
Proof.
  revert s. induction p as [|a p IH]; intros s; simpl.
  - split; [intros _; by exists s | done].
  - destruct s as [|b s].
    + split; [done | intros [r Hr]; discriminate].
    + rewrite andb_true_iff, Ascii.eqb_eq, IH. split.
      * intros [-> [r ->]]. by exists r.
      * intros [r Hr]. injection Hr as -> ->. split; [done | by exists r].
Qed.

Lemma includes_iff p s : includes p s = true <-> Occurs p s.
Proof.
  unfold Occurs. induction s as [|c s IH].
  - simpl. rewrite orb_false_r, startsWith_iff. split.
    + intros [r Hr]. exists "", r. done.
    + intros (l & r & H). symmetry in H. apply sapp_eq_nil in H as [-> H].
      apply sapp_eq_nil in H as [-> ->]. by exists "".
  - cbn [includes]. rewrite orb_true_iff, IH, startsWith_iff. split.
    + intros [[r Hr]|(l & r & ->)].
      * exists "", r. done.
      * exists (String c l), r. done.
    + intros (l & r & H). destruct l as [|c' l]; simpl in H.
      * left. by exists r.
      * injection H as -> ->. right. by exists l, r.
Qed.

Lemma includes_false_iff p s : includes p s = false <-> ~ Occurs p s.
Proof. rewrite <- includes_iff. by destruct (includes p s). Qed.

Lemma dangles_iff p s : dangles p s = true <-> Dangling p s.
Proof.
  unfold Dangling. induction s as [|c s IH].
  - simpl. split; [done |].
    intros (l & t & v & H & _ & Ht & _). symmetry in H.
    by apply sapp_eq_nil in H as [_ ->].
  - cbn [dangles]. rewrite orb_true_iff, andb_true_iff, negb_true_iff, IH.
    rewrite startsWith_iff, String.eqb_neq. split.
    + intros [[[v Hv] Hne]|(l & t & v & -> & Hp & Ht & Hv)].
      * exists "", (String c s), v. repeat split; try done.
        intros ->. rewrite sapp_nil_r in Hv. by subst.
      * exists (String c l), t, v. done.
    + intros (l & t & v & H & Hp & Ht & Hv). destruct l as [|c' l]; simpl in H.
      * left. subst t. split; [by exists v |].
        intros E. rewrite E in Hp. symmetry in Hp. by apply sapp_id_r in Hp.
      * injection H as -> ->. right. by exists l, t, v.
Qed.

Lemma clean_iff p s : clean p s = true <-> ~ Occurs p s /\ ~ Dangling p s.
Proof.
  unfold clean. rewrite andb_true_iff, !negb_true_iff, includes_false_iff.
  rewrite <- dangles_iff. by destruct (dangles p s); intuition.
Qed.

(** Clean texts stay clean when put one after the other. *)
Lemma clean_app p a b : clean p a = true -> clean p b = true -> clean p (a +:+ b) = true.
Proof.
  rewrite !clean_iff. intros [Oa Da] [Ob Db]. split.
  - intros (l & r & H). apply sapp_eq_app in H as [(k & Ha & H)|(k & Hl & Hb)].
    + apply sapp_eq_app in H as [(k' & Hp & Hb)|(k' & Hk & Hr)].
      * destruct k as [|c k]; [|destruct k' as [|c' k']].
        -- apply Ob. exists "", r. simpl in Hp. subst. reflexivity.
        -- apply Oa. exists l, "". rewrite sapp_nil_r in *. by subst.
        -- apply Da. exists l, (String c k), (String c' k'). done.
      * apply Oa. exists l, k'. by subst.
    + apply Ob. by exists k, r.
  - intros (l & t & v & H & Hp & Ht & Hv).
    apply sapp_eq_app in H as [(k & Ha & Ht')|(k & Hl & Hb)].
    + destruct k as [|c k].
      * apply Db. exists "", b, v. simpl in Ht'. subst. simpl. done.
      * apply Da. exists l, (String c k), (b +:+ v).
        rewrite <- sapp_assoc, <- Ht'. repeat split; try done.
        intros E. by apply sapp_eq_nil in E as [_ ->].
    + apply Db. by exists k, t, v.
Qed.

(** A text without the first character of [p] is clean. *)
Lemma clean_no_head c p s :
  includes (String c "") s = false -> clean (String c p) s = true.
Proof.
  rewrite includes_false_iff, clean_iff. intros H. split.
  - intros (l & r & ->). apply H. exists l, (p +:+ r). done.
  - intros (l & t & v & -> & Hp & Ht & _). destruct t as [|c' t]; [done |].
    injection Hp as -> _. apply H. exists l, t. done.
Qed.

(** A character that is not in [p] separates the occurrences of [p]. *)
Lemma includes_sep p c l r :
  includes (String c "") p = false ->
  includes p l = false -> includes p r = false ->
  includes p (l +:+ String c r) = false.
Proof.
  rewrite !includes_false_iff. intros Hc Hl Hr (l' & r' & H).
  apply sapp_eq_app in H as [(k & El & H)|(k & El & H)].
  - apply sapp_eq_app in H as [(k' & Ep & H)|(k' & Ek & _)].
    + destruct k' as [|c' k']; simpl in H.
      * apply Hl. exists l', "". rewrite sapp_nil_r in *. by subst.
      * injection H as <- _. apply Hc. exists k, k'. done.
    + apply Hl. exists l', k'. by subst.
  - destruct k as [|c' k]; simpl in H.
    + destruct p as [|c' p]; simpl in H.
      * apply Hl. exists "", l. done.
      * injection H as <- _. apply Hc. exists "", p. done.
    + injection H as _ ->. apply Hr. by exists k, r'.
Qed.

End Texts.

(** ** [String] and [escapeHTML] *)

Example escapeHTML_script :
  escapeHTML (JStr "<script>alert('x')</script>")
  = Returned "&lt;script&gt;alert(&#39;x&#39;)&lt;/script&gt;".
Proof. reflexivity. Qed.

Example escapeHTML_array :
  escapeHTML (JArr [JStr "a&b"; JNull; JNum "12"; JBool false; JObj ∅])
  = Returned "a&amp;b,,12,false,[object Object]".
Proof. vm_compute. reflexivity. Qed.

Example escapeHTML_falsy :
  escapeHTML JUndef = Returned ""
  /\ escapeHTML (JNum "0") = Returned ""
  /\ escapeHTML JNull = Returned "".
Proof. repeat split. Qed.

(** An object with a [toString] of its own cannot be converted, alone or
    as an element of an array. *)
Example escapeHTML_throws :
  escapeHTML (JObj (<["toString" := JNum "1"]> ∅)) = Threw cannotConvert
  /\ escapeHTML (JArr [JStr "a"; JObj (<["toString" := JStr "x"]> ∅)]) = Threw cannotConvert.
Proof. split; vm_compute; reflexivity. Qed.

(** Induction on a value, through the elements of the arrays. *)
Lemma JsVal_elements_ind (P : JsVal -> Prop) :
  P JUndef -> P JNull -> (forall b, P (JBool b)) -> (forall text, P (JNum text)) ->
  (forall s, P (JStr s)) -> (forall l, Forall P l -> P (JArr l)) ->
  (forall m, P (JObj m)) -> forall v, P v.
Proof.
  intros Hu Hn Hb Hnum Hs Ha Ho. fix IH 1.
  intros [| |b|text|s|l|m];
    [exact Hu | exact Hn | apply Hb | apply Hnum | apply Hs | | apply Ho].
  apply Ha. induction l as [|x l IHl]; constructor; [apply IH | exact IHl].
Qed.

(** Sequencing after a computation that has returned, or thrown. *)
Lemma bind_returned {A B} (a : A) (k : A -> Completion B) : (x ← Returned a; k x) = k a.
Proof. reflexivity. Qed.

Lemma bind_threw {A B} (e : JsError) (k : A -> Completion B) : (x ← Threw e; k x) = Threw e.
Proof. reflexivity. Qed.

Lemma bind_whenPrintable {A B} (b : bool) (a : A) (k : A -> Completion B) :
  (x ← whenPrintable b a; k x) = if b then k a else Threw cannotConvert.
Proof. by destruct b. Qed.

Lemma falsy_printable v : truthy v = false -> printable v = true.
Proof. by destruct v. Qed.

Lemma printable_or v x : printable x = true -> printable (or_ v x) = printable v.
Proof.
  intros Hx. unfold or_. destruct (truthy v) eqn:Hv; [reflexivity |].
  by rewrite Hx, falsy_printable.
Qed.

Lemma toString_array l :
  toString (JArr l)
  = (parts ← allReturned (map (fun x => match x with
                                | JUndef | JNull => Returned ""
                                | _ => toString x
                                end) l);
     Returned (String.concat "," parts)).
Proof. reflexivity. Qed.

Lemma toText_array l :
  toText (JArr l)
  = String.concat "," (map (fun x => match x with
                              | JUndef | JNull => ""
                              | _ => toText x
                              end) l).
Proof. reflexivity. Qed.

Lemma printable_array l : printable (JArr l) = forallb printable l.
Proof. reflexivity. Qed.

(** [String] returns the text of a printable value and throws on the
    others. *)
Lemma toString_text v : toString v = whenPrintable (printable v) (toText v).
Proof.
  induction v as [| |b|text|s|l IH|m] using JsVal_elements_ind; try reflexivity.
  - by destruct b.
  - rewrite toString_array, toText_array, printable_array.
    assert (allReturned (map (fun x => match x with
                                | JUndef | JNull => Returned ""
                                | _ => toString x
                                end) l)
            = whenPrintable (forallb printable l)
                (map (fun x => match x with
                        | JUndef | JNull => ""
                        | _ => toText x
                        end) l)) as ->.
    { induction IH as [|x l Hx _ IHl]; [reflexivity |].
      cbn [map allReturned forallb]. rewrite IHl.
      assert (match x with
              | JUndef | JNull => Returned ""
              | _ => toString x
              end = whenPrintable (printable x)
                      (match x with JUndef | JNull => "" | _ => toText x end)) as ->
        by (by destruct x).
      by destruct (printable x), (forallb printable l). }
    by destruct (forallb printable l).
  - cbn [toString printable toText]. by destruct (m !! "toString").
Qed.

Lemma escapeHTML_text v : escapeHTML v = whenPrintable (printable v) (escapedText v).
Proof.
  unfold escapeHTML, escapedText. rewrite toString_text, printable_or by reflexivity.
  by destruct (printable v).
Qed.

Lemma escapeHTML_str s : escapeHTML (JStr s) = Returned (replaceSpecials s).
Proof. unfold escapeHTML, or_. by destruct s. Qed.

Lemma escapedText_str s : escapedText (JStr s) = replaceSpecials s.
Proof. unfold escapedText, or_. by destruct s. Qed.

(** What [escapeHTML] returns is the escaped text of the value. *)
Lemma escapeHTML_returned v text :
  escapeHTML v = Returned text -> printable v = true /\ text = escapedText v.
Proof.
  rewrite escapeHTML_text. destruct (printable v); [| discriminate].
  by intros [= <-].
Qed.

Lemma includes_char_app c a b :
  includes (String c "") (a +:+ b) = includes (String c "") a || includes (String c "") b.
Proof.
  induction a as [|x a IH]; simpl.
  - destruct b; reflexivity.
  - rewrite IH. by rewrite orb_assoc.
Qed.

Lemma entity_no_markup c d : d ∈ markupChars -> includes (String d "") (entity c) = false.
Proof.
  intros Hd. apply list_elem_of_In in Hd. simpl in Hd.
  destruct Hd as [<-|[<-|[<-|[<-|[]]]]]; unfold entity;
    repeat match goal with
           | |- context [Ascii.eqb c ?x] =>
               destruct (Ascii.eqb_spec c x) as [->|?]; [reflexivity |]
           end;
    cbn [includes startsWith]; rewrite orb_false_r, andb_true_r;
    apply Ascii.eqb_neq; congruence.
Qed.

Lemma replaceSpecials_no_markup s d :
  d ∈ markupChars -> includes (String d "") (replaceSpecials s) = false.
Proof.
  intros Hd. induction s as [|c s IH]; [reflexivity |].
  cbn [replaceSpecials]. by rewrite includes_char_app, entity_no_markup, IH.
Qed.

Lemma replaceSpecials_app a b :
  replaceSpecials (a +:+ b) = replaceSpecials a +:+ replaceSpecials b.
Proof.
  induction a as [|c a IH]; [reflexivity |].
  simpl. by rewrite IH, sapp_assoc.
Qed.

(** An escaped value is clean for every pattern that starts with the
    opening angle bracket. *)
Lemma clean_escaped p v : clean (String "<" p) (escapedText v) = true.
Proof.
  apply clean_no_head, replaceSpecials_no_markup. unfold markupChars. set_solver.
Qed.

(** ** The renderer *)

Lemma orC_returned v w : orC (Returned v) (Returned w) = Returned (or_ v w).
Proof. unfold orC, or_. simpl. by destruct (truthy v). Qed.

Lemma buildHealth_obj host m : buildHealth host (JObj m) = Returned (healthOf host m).
Proof. unfold buildHealth, getProp. by rewrite !orC_returned. Qed.

(** Each part of the renderer returns its text when the value it converts
    is printable, and throws otherwise; a falsy value is not converted. *)
Lemma anchor_text v : anchor v = whenPrintable (printable v) (anchorText v).
Proof. unfold anchor. rewrite escapeHTML_text. by destruct (printable v). Qed.

Lemma descHtml_text health :
  descHtml health = whenPrintable (printable (description health)) (descText health).
Proof.
  unfold descHtml, descText. destruct (truthy (description health)) eqn:Hv.
  - rewrite escapeHTML_text. by destruct (printable _).
  - by rewrite falsy_printable.
Qed.

Lemma contactLinkHtml_text health :
  contactLinkHtml health
  = whenPrintable (printable (contactLink health)) (contactText health).
Proof.
  unfold contactLinkHtml, contactText. destruct (truthy (contactLink health)) eqn:Hv.
  - apply anchor_text.
  - by rewrite falsy_printable.
Qed.

Lemma linkLine_text label v :
  linkLine label v = whenPrintable (printable v) (linkText label v).
Proof.
  unfold linkLine, linkText. destruct (truthy v) eqn:Hv.
  - rewrite anchor_text. by destruct (printable v).
  - by rewrite falsy_printable.
Qed.

Lemma maxLengthLine_text v :
  maxLengthLine v = whenPrintable (printable v) (maxLengthText v).
Proof.
  unfold maxLengthLine, maxLengthText. destruct (truthy v) eqn:Hv.
  - rewrite escapeHTML_text. by destruct (printable v).
  - by rewrite falsy_printable.
Qed.

Lemma appendRules_text html rules :
  appendRules html rules
  = whenPrintable (forallb printable rules) (appendText html rules).
Proof.
  revert html. induction rules as [|rule rules IH]; intros html; [reflexivity |].
  cbn [appendRules forallb]. rewrite escapeHTML_text, bind_whenPrintable.
  destruct (printable rule); [| reflexivity]. apply IH.
Qed.

Lemma rulesHtml_text v :
  rulesHtml v = whenPrintable (rulesPrintable v) (rulesText v).
Proof.
  unfold rulesHtml, rulesText, rulesPrintable.
  destruct v as [| |b|text|s|l|m]; cbn [isArray elements negb orb];
    rewrite ?andb_false_r; try reflexivity.
  cbn [truthy andb]. rewrite printable_array.
  destruct (0 <? length l) eqn:Hl.
  - rewrite appendRules_text. by destruct (forallb printable l).
  - by destruct l.
Qed.

Lemma renderOffline_text h error : renderOffline h error = Returned (offlineText h error).
Proof. unfold renderOffline. by rewrite !escapeHTML_str, <- !escapedText_str. Qed.

(** On an object no property read throws: the renderer returns
    [markupOf], or throws where a conversion does. *)
Lemma renderOnline_obj h m :
  renderOnline h (JObj m) = whenPrintable (renders m) (markupOf h m).
Proof.
  unfold renderOnline. rewrite buildHealth_obj, bind_returned.
  unfold metaIcon, metaBanner, metaTos, metaPrivacy, metaLink, metaMaxLength,
    metaRulesHtml, getProp.
  rewrite descHtml_text, contactLinkHtml_text, !bind_returned, !linkLine_text,
    maxLengthLine_text, rulesHtml_text.
  unfold renders. cbn [description contactLink version adminName adminEmail host healthOf].
  repeat (rewrite bind_whenPrintable;
          match goal with
          | |- (if ?b then _ else _) = _ => destruct b; [| reflexivity]
          end).
  rewrite escapeHTML_str, bind_returned, !escapeHTML_text.
  rewrite !printable_or by reflexivity.
  repeat (rewrite bind_whenPrintable;
          match goal with
          | |- (if ?b then _ else _) = _ => destruct b; [| reflexivity]
          end).
  unfold markupOf, markupText, headText, onlineMarkup, onlineHead.
  cbn [description contactLink version adminName adminEmail host healthOf andb whenPrintable].
  by rewrite escapedText_str.
Qed.

Lemma renderOnline_returned h m markup :
  renderOnline h (JObj m) = Returned markup -> renders m = true /\ markup = markupOf h m.
Proof.
  rewrite renderOnline_obj. destruct (renders m); [| discriminate]. by intros [= <-].
Qed.

(** What is not an object renders like the empty object, but for [null]
    and [undefined], whose first property read throws. *)
Lemma renderOnline_primitive h v :
  match v with JObj _ | JNull | JUndef => False | _ => True end ->
  renderOnline h v = renderOnline h (JObj ∅).
Proof. by destruct v. Qed.

Lemma renderOnline_cases h meta :
  (exists m, renderOnline h meta = Returned (markupOf h m))
  \/ (exists e, renderOnline h meta = Threw e).
Proof.
  assert (forall m, (exists m', renderOnline h (JObj m) = Returned (markupOf h m'))
                    \/ (exists e, renderOnline h (JObj m) = Threw e)) as Hobj.
  { intros m. rewrite renderOnline_obj. destruct (renders m); [left | right]; by eexists. }
  destruct meta as [| |b|text|s|l|m]; try (right; eexists; reflexivity);
    try (rewrite renderOnline_primitive by exact I); apply Hobj.
Qed.


(** Cleanness of a text built from template literals, escaped values and
    choices between such texts. *)
Ltac clean_tac :=
  repeat match goal with
         | |- clean _ (escapedText _) = true => apply clean_escaped
         | |- clean _ (_ +:+ _) = true => apply clean_app
         | |- clean _ (if ?b then _ else _) = true => destruct b
         | |- clean _ _ = true => vm_compute; reflexivity
         end.

Ltac unfold_templates :=
  unfold markupText, headText, offlineText, descText, contactText,
    linkText, maxLengthText, anchorText.

Lemma appendText_flatten acc rules :
  appendText acc rules = acc +:+ flatten (map ruleItem rules).
Proof.
  unfold appendText. revert acc. induction rules as [|r rules IH]; intros acc.
  - simpl. by rewrite sapp_nil_r.
  - cbn [fold_left map flatten fold_right]. rewrite IH. unfold ruleItem.
    by rewrite !sapp_assoc.
Qed.

Lemma clean_flatten p l :
  Forall (fun s => clean p s = true) l -> clean p "" = true -> clean p (flatten l) = true.
Proof.
  intros Hl Hnil. induction Hl as [|s l Hs _ IH]; [exact Hnil |].
  cbn [flatten fold_right]. by apply clean_app.
Qed.



Lemma clean_rulesText_script v : clean "<script" (rulesText v) = true.
Proof.
  unfold rulesText. destruct (_ && _); [| reflexivity].
  rewrite appendText_flatten. clean_tac.
  apply clean_flatten; [| reflexivity].
  apply Forall_forall. intros s Hs. apply list_elem_of_fmap in Hs as [r [-> _]].
  unfold ruleItem. clean_tac.
Qed.

Lemma clean_markup_script host m : clean "<script" (markupOf host m) = true.
Proof.
  unfold markupOf, markupText. apply clean_app; [| apply clean_app].
  - unfold_templates. clean_tac.
  - apply clean_rulesText_script.
  - reflexivity.
Qed.

Lemma clean_offline_script host error : clean "<script" (offlineText host error) = true.
Proof. unfold_templates. clean_tac. Qed.



Lemma clean_includes p s : clean p s = true -> includes p s = false.
Proof. unfold clean. by destruct (includes p s). Qed.

(** Occurrences and concatenation. *)
Lemma includes_app_r p l r : includes p r = true -> includes p (l +:+ r) = true.
Proof.
  rewrite !includes_iff. intros (a & b & ->). exists (l +:+ a), b.
  by rewrite sapp_assoc.
Qed.

Lemma includes_app_l p l r : includes p l = true -> includes p (l +:+ r) = true.
Proof.
  rewrite !includes_iff. intros (a & b & ->). exists a, (b +:+ r).
  by rewrite !sapp_assoc.
Qed.

(** A text that lacks the first character of [p] can be skipped. *)
Lemma includes_skip c p a s :
  includes (String c "") a = false ->
  includes (String c p) (a +:+ s) = includes (String c p) s.
Proof.
  induction a as [|x a IH]; [reflexivity |].
  cbn [includes startsWith]. rewrite andb_true_r.
  intros H. apply orb_false_elim in H as [Hx Ha].
  change (String x a +:+ s) with (String x (a +:+ s)).
  cbn [includes startsWith]. rewrite Hx. simpl. by apply IH.
Qed.

Lemma includes_sep_app p l a r :
  headOutside p a = true ->
  includes p l = false -> includes p (a +:+ r) = false ->
  includes p (l +:+ a +:+ r) = false.
Proof.
  destruct a as [|c a]; [done |]. cbn [headOutside]. rewrite negb_true_iff.
  intros Hc Hl Hr. change (String c a +:+ r) with (String c (a +:+ r)) in *.
  apply includes_sep; [done | done |].
  cbn [includes] in Hr. by apply orb_false_elim in Hr as [_ Hr].
Qed.

Lemma or_same a b x : sameWhenTruthy a b -> or_ a x = or_ b x.
Proof. unfold or_. by intros [->|[-> ->]]. Qed.

Lemma linkText_same label a b : sameWhenTruthy a b -> linkText label a = linkText label b.
Proof. unfold linkText. by intros [->|[-> ->]]. Qed.

Lemma maxLengthText_same a b : sameWhenTruthy a b -> maxLengthText a = maxLengthText b.
Proof. unfold maxLengthText. by intros [->|[-> ->]]. Qed.

Lemma rulesText_same a b : sameWhenTruthy a b -> rulesText a = rulesText b.
Proof. unfold rulesText. by intros [->|[-> ->]]. Qed.

Lemma markupOf_ext h m1 m2 :
  (forall k, k ∈ renderedKeys -> sameWhenTruthy (prop m1 k) (prop m2 k)) ->
  markupOf h m1 = markupOf h m2.
Proof.
  intros H.
  assert (forall k x, k ∈ renderedKeys -> or_ (prop m1 k) x = or_ (prop m2 k) x) as Hor
    by (intros; by apply or_same, H).
  unfold markupOf, markupText, headText, descText, contactText, healthOf.
  cbn [host version description adminName adminEmail contactLink].
  rewrite (Hor "version"), (Hor "description"), (Hor "maintainerName"),
    (Hor "maintainerEmail"), (Hor "repositoryUrl"), (Hor "inquiryUrl")
    by (unfold renderedKeys; set_solver).
  rewrite (maxLengthText_same (prop m1 _) (prop m2 _)),
    !(linkText_same _ (prop m1 _) (prop m2 _)),
    (rulesText_same (prop m1 _) (prop m2 _))
    by (apply H; unfold renderedKeys; set_solver).
  reflexivity.
Qed.

Lemma printable_same a b : sameWhenTruthy a b -> printable a = printable b.
Proof. intros [->|[Ha Hb]]; [reflexivity |]. by rewrite !falsy_printable. Qed.

Lemma rulesPrintable_same a b : sameWhenTruthy a b -> rulesPrintable a = rulesPrintable b.
Proof.
  intros [->|[Ha Hb]]; [reflexivity |]. unfold rulesPrintable.
  rewrite !falsy_printable by done. by rewrite !orb_true_r.
Qed.

(** Whether the renderer returns depends on the same properties. *)
Lemma renders_ext m1 m2 :
  (forall k, k ∈ renderedKeys -> sameWhenTruthy (prop m1 k) (prop m2 k)) ->
  renders m1 = renders m2.
Proof.
  intros H.
  assert (forall k x, k ∈ renderedKeys -> or_ (prop m1 k) x = or_ (prop m2 k) x) as Hor
    by (intros; by apply or_same, H).
  unfold renders, healthOf.
  cbn [version description adminName adminEmail contactLink].
  rewrite (Hor "version"), (Hor "description"), (Hor "maintainerName"),
    (Hor "maintainerEmail"), (Hor "repositoryUrl"), (Hor "inquiryUrl")
    by (unfold renderedKeys; set_solver).
  rewrite (printable_same (prop m1 "iconUrl") (prop m2 "iconUrl")),
    (printable_same (prop m1 "bannerUrl") (prop m2 "bannerUrl")),
    (printable_same (prop m1 "tosUrl") (prop m2 "tosUrl")),
    (printable_same (prop m1 "privacyPolicyUrl") (prop m2 "privacyPolicyUrl")),
    (printable_same (prop m1 "maxNoteTextLength") (prop m2 "maxNoteTextLength")),
    (rulesPrintable_same (prop m1 "serverRules") (prop m2 "serverRules"))
    by (apply H; unfold renderedKeys; set_solver).
  reflexivity.
Qed.

Lemma renderOnline_ext h m1 m2 :
  (forall k, k ∈ renderedKeys -> sameWhenTruthy (prop m1 k) (prop m2 k)) ->
  renderOnline h (JObj m1) = renderOnline h (JObj m2).
Proof.
  intros H. by rewrite !renderOnline_obj, (renders_ext m1 m2 H), (markupOf_ext h m1 m2 H).
Qed.

Lemma healthOf_ext host m1 m2 :
  (forall k, sameWhenTruthy (prop m1 k) (prop m2 k)) -> healthOf host m1 = healthOf host m2.
Proof.
  intros H. unfold healthOf.
  by rewrite (or_same _ _ _ (H "version")), (or_same _ _ _ (H "description")),
    (or_same _ _ _ (H "maintainerName")), (or_same _ _ _ (H "maintainerEmail")),
    (or_same _ _ _ (H "repositoryUrl")), (or_same _ _ _ (H "inquiryUrl")),
    (or_same _ _ _ (H "name")), (or_same _ _ _ (H "softwareName")).
Qed.

(** A falsy property reads like a missing one. *)
Lemma prop_insert_falsy m k v k' :
  truthy v = false -> sameWhenTruthy (prop (<[k:=v]> m) k') (prop (delete k m) k').
Proof.
  intros Hv. unfold prop. destruct (decide (k = k')) as [->|Hne].
  - right. by rewrite lookup_insert_eq, lookup_delete_eq.
  - left. by rewrite lookup_insert_ne, lookup_delete_ne.
Qed.

(** ** [getMeta] *)

(** Running a script: the sequencing and the primitives unfolded. *)
Ltac run_script :=
  unfold mbind, script_bind, bindS, mret, script_ret, retS, throwS, liftC, tryCatch,
    consoleError, setResult, abortSignalTimeout, fetch;
  cbn [now signals requests console hostInput resultDiv
       method url headers body signal postRequest getRequest fst snd].

Lemma lookup_new_signal (l : list nat) (d x : nat) :
  default x ((l ++ [d]) !! length l) = d.
Proof. by rewrite list_lookup_middle. Qed.

Lemma postCatch_run host e w :
  postCatch host e w
  = (Returned FallThrough,
     mkWorld (now w) (signals w) (requests w) (console w ++ postLog host (Threw e))
             (hostInput w) (resultDiv w)).
Proof.
  unfold postCatch. run_script. cbn [postLog].
  by destruct (String.eqb (name e) "AbortError").
Qed.

Lemma getAttempt_run net host sid w d resG tG :
  default (now w) (signals w !! sid) = d ->
  settle (net GET (metaUrl host)) (now w) d = (resG, tG) ->
  getAttempt net host sid w
  = (getOutcome resG,
     mkWorld tG (signals w) (requests w ++ [getRequest host sid]) (console w)
             (hostInput w) (resultDiv w)).
Proof.
  intros Hd HG. unfold getAttempt. run_script. rewrite Hd, HG.
  destruct resG as [rG|eG]; cbn [getOutcome]; [| reflexivity].
  by destruct (ok rG).
Qed.

Section GetMeta.

Variables (net : Network) (host : string) (w : World).

(** The signal [getMeta] creates is the next one, [length (signals w)],
    and it is due at [now w + 5000]. *)

(** A POST that gives a 2xx response: one request, and [getMeta] settles to
    what the body parses to. *)
Lemma getMeta_post_ok r tP :
  settle (net POST (metaUrl host)) (now w) (now w + 5000) = (Returned r, tP) ->
  ok r = true ->
  getMeta net host w
  = (json r,
     mkWorld tP (signals w ++ [now w + 5000])
             (requests w ++ [postRequest host (length (signals w))])
             (console w) (hostInput w) (resultDiv w)).
Proof.
  intros HP Hok. unfold getMeta, postAttempt. run_script.
  rewrite lookup_new_signal, HP. by rewrite Hok.
Qed.

(** A POST that fails: it is logged (but for 404 and 405), the GET attempt
    follows under the same signal, and [getMeta] settles as the GET does. *)
Lemma getMeta_fallback resP tP resG tG :
  settle (net POST (metaUrl host)) (now w) (now w + 5000) = (resP, tP) ->
  postFailed resP = true ->
  settle (net GET (metaUrl host)) tP (now w + 5000) = (resG, tG) ->
  getMeta net host w
  = (getOutcome resG,
     mkWorld tG (signals w ++ [now w + 5000])
             (requests w ++ [postRequest host (length (signals w));
                             getRequest host (length (signals w))])
             (console w ++ postLog host resP) (hostInput w) (resultDiv w)).
Proof.
  intros HP Hfail HG.
  unfold getMeta, postAttempt. run_script.
  rewrite lookup_new_signal, HP.
  destruct resP as [r|e]; cbn [postFailed] in Hfail.
  - apply negb_true_iff in Hfail. rewrite Hfail. cbn [postLog].
    destruct (negb (status r =? 405) && negb (status r =? 404)).
    + rewrite postCatch_run.
      erewrite getAttempt_run; [| apply lookup_new_signal | exact HG].
      cbn [now signals requests console hostInput resultDiv postLog name Error].
      by rewrite <- app_assoc.
    + erewrite getAttempt_run; [| apply lookup_new_signal | exact HG].
      cbn [now signals requests console hostInput resultDiv].
      by rewrite <- app_assoc, app_nil_r.
  - rewrite postCatch_run.
    erewrite getAttempt_run; [| apply lookup_new_signal | exact HG].
    cbn [now signals requests console hostInput resultDiv].
    by rewrite <- app_assoc.
Qed.

End GetMeta.


(** ** [doSearch] *)

Lemma doSearch_blank net w : trim (hostInput w) = "" -> doSearch net w = (Returned tt, w).
Proof. intros H. unfold doSearch. by rewrite H. Qed.

Lemma searchCatch_run host e w :
  searchCatch host e w = (Returned tt, offlineWorld host e w).
Proof. unfold searchCatch. run_script. by rewrite renderOffline_text. Qed.

Lemma doSearch_run net w host :
  trim (hostInput w) = host -> host <> "" ->
  doSearch net w
  = match getMeta net host (withResult (Text loadingText) w) with
    | (Returned meta, w1) =>
        match renderOnline host meta with
        | Returned markup => (Returned tt, withResult (Markup markup) w1)
        | Threw e => (Returned tt, offlineWorld host e w1)
        end
    | (Threw e, w1) => (Returned tt, offlineWorld host e w1)
    end.
Proof.
  intros <- Hne. unfold doSearch. apply String.eqb_neq in Hne. rewrite Hne.
  unfold searchBody. run_script. fold (withResult (Text loadingText) w).
  destruct (getMeta net _ _) as [[meta|e] w1]; [| apply searchCatch_run].
  destruct (renderOnline _ meta); [reflexivity | apply searchCatch_run].
Qed.

Lemma length_sapp a b : String.length (a +:+ b) = String.length a + String.length b.
Proof. induction a as [|c a IH]; simpl; [reflexivity | by rewrite IH]. Qed.

(** The white space, written out. *)
Lemma whiteSpace_cases p :
  p ∈ whiteSpace ->
  forall rest, stripOne whiteSpace (p +:+ rest) = Some rest /\ 1 <= String.length p.
Proof.
  intros H rest. apply list_elem_of_In in H. vm_compute in H.
  repeat (destruct H as [<-|H]; [vm_compute; split; [reflexivity | lia] |]).
  destruct H.
Qed.

Lemma stripAll_whiteSpace l fuel :
  Forall (fun p => p ∈ whiteSpace) l -> length l <= fuel ->
  stripAll whiteSpace fuel (flatten l) = "".
Proof.
  intros Hl. revert fuel. induction Hl as [|p l Hp _ IH]; intros fuel Hfuel.
  - by destruct fuel.
  - destruct fuel as [|fuel]; [simpl in Hfuel; lia |].
    cbn [flatten fold_right stripAll].
    destruct (whiteSpace_cases p Hp (fold_right String.append "" l)) as [-> _].
    apply IH. simpl in Hfuel. lia.
Qed.

Lemma length_flatten_whiteSpace l :
  Forall (fun p => p ∈ whiteSpace) l -> length l <= String.length (flatten l).
Proof.
  induction 1 as [|p l Hp _ IH]; [simpl; lia |].
  cbn [flatten fold_right length]. rewrite length_sapp.
  destruct (whiteSpace_cases p Hp "") as [_ H1]. unfold flatten in IH. lia.
Qed.

Lemma trim_whitespaceOnly s : WhitespaceOnly s -> trim s = "".
Proof.
  intros (l & Hl & ->). unfold trim, trimStart.
  rewrite stripAll_whiteSpace; [reflexivity | done |].
  by apply length_flatten_whiteSpace.
Qed.

(** ** Properties of [getMeta] and [doSearch] *)

Lemma ok_iff r : ok r = true <-> 200 <= status r <= 299.
Proof. unfold ok. rewrite andb_true_iff, !Nat.leb_le. done. Qed.

Lemma postFailed_iff resP :
  postFailed resP = true <-> forall r, resP = Returned r -> ~ 200 <= status r <= 299.
Proof.
  destruct resP as [r|e]; cbn [postFailed].
  - rewrite negb_true_iff, <- not_true_iff_false, ok_iff. split.
    + by intros H r' [= <-].
    + intros H. by apply H.
  - split; [by intros _ r [=] | done].
Qed.

(** C1. When the POST settles to a response with a 2xx status, [getMeta]
    settles to what the JSON body of that response parses to, the parsed
    value when it parses, and the only call of [fetch] it makes is the
    POST: no GET is issued. *)
Theorem post_success_returns_post_body net host w r tP :
  settle (net POST (metaUrl host)) (now w) (now w + 5000) = (Returned r, tP) ->
  200 <= status r <= 299 ->
  fst (getMeta net host w) = json r
  /\ (forall meta, json r = Returned meta -> fst (getMeta net host w) = Returned meta)
  /\ requests (snd (getMeta net host w))
     = requests w ++ [postRequest host (length (signals w))].
Proof.
  intros HP Hok. apply ok_iff in Hok.
  rewrite (getMeta_post_ok net host w r tP HP Hok). cbn [fst snd requests].
  split; [reflexivity |]. split; [by intros meta <- | reflexivity].
Qed.

(** C2. When the POST does not settle to a 2xx response (it gives 404, 405
    or another status, or it throws a transport or timeout error), [getMeta]
    calls [fetch] exactly once more, after the POST, with the method GET and
    the URL of the POST. *)
Theorem post_failure_falls_back_to_get net host w resP tP :
  settle (net POST (metaUrl host)) (now w) (now w + 5000) = (resP, tP) ->
  (forall r, resP = Returned r -> ~ 200 <= status r <= 299) ->
  requests (snd (getMeta net host w))
  = requests w ++ [postRequest host (length (signals w));
                   getRequest host (length (signals w))]
  /\ method (getRequest host (length (signals w))) = GET
  /\ url (getRequest host (length (signals w)))
     = url (postRequest host (length (signals w))).
Proof.
  intros HP Hfail. apply postFailed_iff in Hfail.
  destruct (settle (net GET (metaUrl host)) tP (now w + 5000)) as [resG tG] eqn:HG.
  rewrite (getMeta_fallback net host w resP tP resG tG HP Hfail HG).
  done.
Qed.

(** C3. When the POST fails and the GET fails too (it throws, or gives a
    status that is not 2xx, or a body that does not parse), [getMeta]
    throws the error [e] of the GET, and [doSearch] leaves in the output
    region what [renderOffline] returns for the host and the message of
    [e]: a block whose status is Offline and whose error line shows the
    escaped message of [e].  The failure of the POST does not enter the
    block. *)
Theorem both_fail_shows_get_error net w host resP tP resG tG e :
  trim (hostInput w) = host -> host <> "" ->
  settle (net POST (metaUrl host)) (now w) (now w + 5000) = (resP, tP) ->
  (forall r, resP = Returned r -> ~ 200 <= status r <= 299) ->
  settle (net GET (metaUrl host)) tP (now w + 5000) = (resG, tG) ->
  getOutcome resG = Threw e ->
  fst (getMeta net host w) = Threw e
  /\ exists markup errorText,
       renderOffline host (message e) = Returned markup
       /\ escapeHTML (JStr (message e)) = Returned errorText
       /\ resultDiv (snd (doSearch net w)) = Markup markup
       /\ includes (">Offline</span>") markup = true
       /\ includes ("<p><strong>Error:</strong> " +:+ errorText +:+ "</p>") markup = true.
Proof.
  intros Hhost Hne HP Hfail HG He. apply postFailed_iff in Hfail.
  split.
  - by rewrite (getMeta_fallback net host w resP tP resG tG HP Hfail HG), He.
  - exists (offlineText host (message e)), (escapedText (JStr (message e))).
    split; [apply renderOffline_text |]. split; [by rewrite escapeHTML_text |].
    split; [| split].
    + rewrite (doSearch_run net w host Hhost Hne).
      rewrite (getMeta_fallback net host (withResult (Text loadingText) w)
                 resP tP resG tG HP Hfail HG), He.
      reflexivity.
    + unfold offlineText. do 9 apply includes_app_r.
      apply includes_app_l. reflexivity.
    + unfold offlineText. do 11 apply includes_app_r.
      apply includes_iff. exists "", (nl +:+ "    "). by rewrite !sapp_assoc.
Qed.

Lemma post_success_witness :
  requests (snd (getMeta netPostOk "example.com" world0)) = [postRequest "example.com" 0].
Proof.
  refine (proj2 (proj2 (post_success_returns_post_body netPostOk "example.com" world0
                          (mkResponse 200 (Returned (JObj metaFoo))) 120 _ _))).
  - reflexivity.
  - simpl. lia.
Defined.

Lemma post_failure_witness :
  requests (snd (getMeta netDown "example.com" world0))
  = [postRequest "example.com" 0; getRequest "example.com" 0].
Proof.
  refine (proj1 (post_failure_falls_back_to_get netDown "example.com" world0
                   (Returned (mkResponse 500 (Threw syntaxError))) 10 _ _)).
  - reflexivity.
  - intros r [= <-]. simpl. lia.
Defined.

Lemma both_fail_witness :
  exists markup errorText,
    renderOffline "example.com" "GET failed (503)" = Returned markup
    /\ escapeHTML (JStr "GET failed (503)") = Returned errorText
    /\ resultDiv (snd (doSearch netDown world0)) = Markup markup
    /\ includes (">Offline</span>") markup = true
    /\ includes ("<p><strong>Error:</strong> " +:+ errorText +:+ "</p>") markup = true.
Proof.
  refine (proj2 (both_fail_shows_get_error netDown world0 "example.com"
                   (Returned (mkResponse 500 (Threw syntaxError))) 10
                   (Returned (mkResponse 503 (Threw syntaxError))) 20
                   (Error "GET failed (503)") _ _ _ _ _ _)).
  - vm_compute. reflexivity.
  - discriminate.
  - reflexivity.
  - intros r [= <-]. simpl. lia.
  - reflexivity.
  - vm_compute. reflexivity.
Defined.

(** C4, as stated, fails.  A 2xx POST response whose body is not JSON is a
    POST-level failure that is neither logged nor followed by the GET: the
    parse error ends [getMeta].  And a 404 triggers the GET without a line
    in the console. *)
Lemma malformed_post_body_not_swallowed :
  getMeta netMalformed "example.com" world0
  = (Threw syntaxError,
     mkWorld 120 [5000] [postRequest "example.com" 0] [] " example.com " (Text ""))
  /\ console (snd (getMeta (netGetOnly 100) "example.com" world0)) = [].
Proof. split; vm_compute; reflexivity. Qed.

(** C4, amended.  A POST that throws (a transport failure or a timeout) or
    gives a status that is not 2xx does not end [getMeta]: the GET attempt
    follows and [getMeta] settles as the GET does.  The failure is written
    to the console, one line, unless the status is 404 or 405, which is
    not logged.  (A 2xx response with a body that is not JSON is left out:
    it is not caught.) *)
Theorem post_failure_swallowed net host w resP tP resG tG :
  settle (net POST (metaUrl host)) (now w) (now w + 5000) = (resP, tP) ->
  (forall r, resP = Returned r -> ~ 200 <= status r <= 299) ->
  settle (net GET (metaUrl host)) tP (now w + 5000) = (resG, tG) ->
  fst (getMeta net host w) = getOutcome resG
  /\ requests (snd (getMeta net host w))
     = requests w ++ [postRequest host (length (signals w));
                      getRequest host (length (signals w))]
  /\ console (snd (getMeta net host w)) = console w ++ postLog host resP
  /\ (length (postLog host resP) = 0
      <-> exists r, resP = Returned r /\ (status r = 404 \/ status r = 405))
  /\ (length (postLog host resP) = 1
      <-> ~ exists r, resP = Returned r /\ (status r = 404 \/ status r = 405)).
Proof.
  intros HP Hfail HG. apply postFailed_iff in Hfail.
  rewrite (getMeta_fallback net host w resP tP resG tG HP Hfail HG).
  cbn [fst snd requests console]. repeat split; try reflexivity.
  all: destruct resP as [r|e]; cbn [postLog].
  all: try destruct (String.eqb (name e) "AbortError").
  all: try (destruct (Nat.eqb_spec (status r) 405), (Nat.eqb_spec (status r) 404)).
  all: cbn [negb andb length]; try done.
  all: try (intros _; exists r; split; [reflexivity | lia]).
  all: try (intros (r' & [=] & _); done).
  all: try (intros _ (r' & [= <-] & ?); lia).
  all: try (intros (r' & [= <-] & ?); lia).
  all: try (intros H; exfalso; apply H; exists r; split; [reflexivity | lia]).
Qed.

Lemma post_failure_swallowed_witness :
  fst (getMeta (netGetOnly 100) "example.com" world0) = Returned (JObj metaFoo).
Proof.
  refine (proj1 (post_failure_swallowed (netGetOnly 100) "example.com" world0
                   (Returned (mkResponse 404 (Threw syntaxError))) 3000
                   (Returned (mkResponse 200 (Returned (JObj metaFoo)))) 3100 _ _ _)).
  - reflexivity.
  - intros r [= <-]. simpl. lia.
  - reflexivity.
Defined.

Lemma settle_late reply t deadline :
  deadline <= t + latency reply -> fst (settle reply t deadline) = Threw timeoutError.
Proof.
  intros H. unfold settle. destruct (Nat.leb_spec deadline t); [reflexivity |].
  destruct (Nat.ltb_spec (t + latency reply) deadline); [lia | reflexivity].
Qed.

Lemma settle_in_time reply t deadline :
  t + latency reply < deadline ->
  settle reply t deadline = (outcome reply, t + latency reply).
Proof.
  intros H. unfold settle. destruct (Nat.leb_spec deadline t); [lia |].
  destruct (Nat.ltb_spec (t + latency reply) deadline); [reflexivity | lia].
Qed.

(** C6. [getMeta] creates one abort signal, due 5000 ms after its start,
    and every call of [fetch] it makes carries that signal.  So after a
    failed POST that settled at [tP] the GET settles under the deadline
    of the start, not under one of its own: it times out as soon as the
    reply would come at or after 5000 ms from the start, however short the
    reply's own delay.  A POST that times out is followed by the GET like
    any other failure (and the GET, under the signal that has fired, times
    out at once). *)
Theorem shared_abort_signal net host w :
  signals (snd (getMeta net host w)) = signals w ++ [now w + 5000]
  /\ (exists new,
        requests (snd (getMeta net host w)) = requests w ++ new
        /\ Forall (fun req => signal req = length (signals w)) new)
  /\ (forall resP tP,
        settle (net POST (metaUrl host)) (now w) (now w + 5000) = (resP, tP) ->
        (forall r, resP = Returned r -> ~ 200 <= status r <= 299) ->
        fst (getMeta net host w)
        = getOutcome (fst (settle (net GET (metaUrl host)) tP (now w + 5000)))
        /\ (now w + 5000 <= tP + latency (net GET (metaUrl host)) ->
            fst (getMeta net host w) = Threw timeoutError)
        /\ (tP + latency (net GET (metaUrl host)) < now w + 5000 ->
            fst (getMeta net host w) = getOutcome (outcome (net GET (metaUrl host)))))
  /\ (5000 <= latency (net POST (metaUrl host)) ->
      requests (snd (getMeta net host w))
      = requests w ++ [postRequest host (length (signals w));
                       getRequest host (length (signals w))]
      /\ fst (getMeta net host w) = Threw timeoutError).
Proof.
  assert (forall resP tP,
            settle (net POST (metaUrl host)) (now w) (now w + 5000) = (resP, tP) ->
            postFailed resP = true ->
            getMeta net host w
            = (getOutcome (fst (settle (net GET (metaUrl host)) tP (now w + 5000))),
               mkWorld (snd (settle (net GET (metaUrl host)) tP (now w + 5000)))
                 (signals w ++ [now w + 5000])
                 (requests w ++ [postRequest host (length (signals w));
                                 getRequest host (length (signals w))])
                 (console w ++ postLog host resP) (hostInput w) (resultDiv w)))
    as Hfb.
  { intros resP tP HP Hfail. apply getMeta_fallback with (tP := tP); [done | done |].
    by destruct (settle (net GET _) tP _). }
  destruct (settle (net POST (metaUrl host)) (now w) (now w + 5000)) as [resP tP] eqn:HP.
  split; [| split; [| split]].
  - destruct (postFailed resP) eqn:Hfail.
    + by rewrite (Hfb resP tP eq_refl Hfail).
    + destruct resP as [r|e]; [| discriminate]. apply negb_false_iff in Hfail.
      by rewrite (getMeta_post_ok net host w r tP HP Hfail).
  - destruct (postFailed resP) eqn:Hfail.
    + rewrite (Hfb resP tP eq_refl Hfail). eexists. split; [reflexivity |].
      by repeat constructor.
    + destruct resP as [r|e]; [| discriminate]. apply negb_false_iff in Hfail.
      rewrite (getMeta_post_ok net host w r tP HP Hfail). eexists.
      split; [reflexivity |]. by repeat constructor.
  - intros resP' tP' [= <- <-] Hfail. apply postFailed_iff in Hfail.
    rewrite (Hfb resP tP eq_refl Hfail). cbn [fst]. split; [reflexivity |]. split.
    + intros Hlate. by rewrite settle_late.
    + intros Hin. by rewrite settle_in_time.
  - intros Hslow. unfold settle in HP.
    destruct (Nat.leb_spec (now w + 5000) (now w)); [lia |].
    destruct (Nat.ltb_spec (now w + latency (net POST (metaUrl host))) (now w + 5000));
      [lia |].
    injection HP as <- <-. rewrite (Hfb _ _ eq_refl eq_refl). cbn [fst snd requests].
    split; [reflexivity |]. rewrite settle_late; [reflexivity | lia].
Qed.

(** On a host whose 404 takes 3 s and whose GET would take 3 s, the GET
    times out: its deadline is what is left of the 5 s. *)
Lemma shared_abort_signal_witness :
  fst (getMeta (netGetOnly 3000) "example.com" world0) = Threw timeoutError.
Proof.
  refine (proj1 (proj2 (proj1 (proj2 (proj2
            (shared_abort_signal (netGetOnly 3000) "example.com" world0)))
            (Returned (mkResponse 404 (Threw syntaxError))) 3000 _ _)) _).
  - reflexivity.
  - intros r [= <-]. simpl. lia.
  - simpl. lia.
Defined.

(** C9. When the host name typed is empty or made of white space only (so
    that trimming leaves nothing), [doSearch] returns at once: no request is
    made, and the output region, like the rest of the state, is as
    before. *)
Theorem blank_host_does_nothing net w :
  WhitespaceOnly (hostInput w) \/ trim (hostInput w) = "" ->
  doSearch net w = (Returned tt, w)
  /\ requests (snd (doSearch net w)) = requests w
  /\ resultDiv (snd (doSearch net w)) = resultDiv w.
Proof.
  intros H. assert (trim (hostInput w) = "") as Hblank.
  { destruct H as [H|H]; [by apply trim_whitespaceOnly | exact H]. }
  by rewrite (doSearch_blank net w Hblank).
Qed.

Lemma blank_host_witness :
  doSearch netDown (mkWorld 7 [] [] [] (" " +:+ bytes [9; 227; 128; 128]) (Text "old"))
  = (Returned tt, mkWorld 7 [] [] [] (" " +:+ bytes [9; 227; 128; 128]) (Text "old")).
Proof.
  refine (proj1 (blank_host_does_nothing netDown
                   (mkWorld 7 [] [] [] (" " +:+ bytes [9; 227; 128; 128]) (Text "old")) _)).
  left. exists [" "; bytes [9]; bytes [227; 128; 128]]. split.
  - repeat constructor; apply list_elem_of_In; vm_compute; tauto.
  - reflexivity.
Defined.

(** A host name with something in it does start a request. *)
Example named_host_searches :
  requests (snd (doSearch netPostOk world0)) = [postRequest "example.com" 0]
  /\ exists markup, resultDiv (snd (doSearch netPostOk world0)) = Markup markup.
Proof. split; [| eexists]; vm_compute; reflexivity. Qed.

(** ** Properties of the markup *)

Lemma entity_other c : c ∉ specialChars -> entity c = String c "".
Proof.
  intros H. unfold entity.
  repeat match goal with
         | |- context [Ascii.eqb c ?x] =>
             destruct (Ascii.eqb_spec c x) as [->|?];
               [exfalso; apply H; unfold specialChars, markupChars; set_solver |]
         end.
  reflexivity.
Qed.

(** C7. [escapeHTML] replaces each of the five characters, wherever it
    stands, by its entity and leaves the other characters as they are, so
    what it returns holds no angle bracket and no quote; a text that
    contains the script tag comes out with the tag as text.  The markup
    [doSearch] builds interpolates values through [escapeHTML] only:
    whatever the host name, the metadata and the error message, it holds no
    script tag. *)
Theorem escapeHTML_neutralises_markup :
  (forall a c b,
     replaceSpecials (a +:+ String c b)
     = replaceSpecials a +:+ entity c +:+ replaceSpecials b)
  /\ (entity "&" = "&amp;" /\ entity "<" = "&lt;" /\ entity ">" = "&gt;"
      /\ entity dquote = "&quot;" /\ entity "'" = "&#39;")
  /\ (forall c, c ∉ specialChars -> entity c = String c "")
  /\ (forall s, escapeHTML (JStr s) = Returned (replaceSpecials s))
  /\ (forall v text c,
        escapeHTML v = Returned text ->
        c ∈ markupChars -> includes (String c "") text = false)
  /\ (forall a b,
        escapeHTML (JStr (a +:+ "<script>" +:+ b))
        = Returned (replaceSpecials a +:+ "&lt;script&gt;" +:+ replaceSpecials b))
  /\ (forall h meta markup,
        renderOnline h meta = Returned markup -> includes "<script" markup = false)
  /\ (forall h error,
        exists markup,
          renderOffline h error = Returned markup
          /\ includes "<script" markup = false).
Proof.
  split; [| split; [| split; [| split; [| split; [| split; [| split]]]]]].
  - intros a c b. by rewrite replaceSpecials_app.
  - by repeat split.
  - apply entity_other.
  - apply escapeHTML_str.
  - intros v text c Hv Hc. apply escapeHTML_returned in Hv as [_ ->].
    by apply replaceSpecials_no_markup.
  - intros a b. by rewrite escapeHTML_str, !replaceSpecials_app.
  - intros h meta markup H.
    destruct (renderOnline_cases h meta) as [[m Hm]|[e Hm]]; rewrite Hm in H; [| done].
    injection H as <-. apply clean_includes, clean_markup_script.
  - intros h error. exists (offlineText h error). split; [apply renderOffline_text |].
    apply clean_includes, clean_offline_script.
Qed.

Lemma escapeHTML_neutralises_markup_witness :
  includes "<script"
    (markupOf "example.com" (<["description" := JStr "<script>alert(1)</script>"]> ∅))
  = false.
Proof.
  refine (proj1 (proj2 (proj2 (proj2 (proj2 (proj2 (proj2 escapeHTML_neutralises_markup))))))
            "example.com"
            (JObj (<["description" := JStr "<script>alert(1)</script>"]> ∅)) _ _).
  vm_compute. reflexivity.
Defined.










Example server_rules_two :
  rulesHtml (JArr [JStr "Be nice"; JStr "No <spam>"])
  = Returned ("<p><strong>Server Rules:</strong></p><ul class=" +:+ dq +:+ "rules" +:+ dq
              +:+ "><li>Be nice</li><li>No &lt;spam&gt;</li></ul>").
Proof. reflexivity. Qed.

(** A value that cannot be converted makes the renderer throw, be it a
    rule or another property shown; [doSearch] then shows the failure
    block. *)
Example unprintable_rule :
  renderOnline "example.com"
    (JObj (<["serverRules" := JArr [JStr "Be nice"; JObj (<["toString" := JStr "x"]> ∅)]]> ∅))
  = Threw cannotConvert
  /\ renderOnline "example.com"
       (JObj (<["serverRules" := JArr [JStr "Be nice"; JStr "No spam"]]>
                (<["version" := JObj (<["toString" := JNum "1"]> ∅)]> ∅)))
     = Threw cannotConvert.
Proof. split; vm_compute; reflexivity. Qed.


Lemma prop_insert_other m k v k' : k <> k' -> prop (<[k:=v]> m) k' = prop m k'.
Proof. intros H. unfold prop. by rewrite lookup_insert_ne. Qed.

(** The renderer reads neither [softwareName] nor [name]. *)
Lemma renderOnline_unread h m k v :
  k = "softwareName" \/ k = "name" ->
  renderOnline h (JObj (<[k:=v]> m)) = renderOnline h (JObj m).
Proof.
  intros Hk. apply renderOnline_ext. intros k' Hk'. left. apply prop_insert_other.
  apply list_elem_of_In in Hk'. simpl in Hk'.
  intros <-. destruct Hk as [->| ->]; intuition discriminate.
Qed.

Lemma renderOnline_metaFoo h :
  renderOnline h (JObj metaFoo) = Returned (markupOf h metaFoo).
Proof. by rewrite renderOnline_obj. Qed.

(** C5. For the metadata with [softwareName] Foo and [version] 1.0 the
    renderer returns markup that shows 1.0 on its Version line and holds
    no Foo, unless the host name, which the Host line shows escaped,
    brings one.  More: what the renderer gives is the same whatever
    [softwareName] and [name] are; the value [doSearch] computes from them
    is put nowhere. *)
Theorem software_name_not_rendered :
  (forall h hostText,
     escapeHTML (JStr h) = Returned hostText ->
     includes "Foo" hostText = false ->
     exists markup,
       renderOnline h (JObj metaFoo) = Returned markup
       /\ includes "Foo" markup = false)
  /\ (forall h,
        exists markup,
          renderOnline h (JObj metaFoo) = Returned markup
          /\ includes "<p><strong>Version:</strong> 1.0</p>" markup = true)
  /\ (forall h m k v,
        k = "softwareName" \/ k = "name" ->
        renderOnline h (JObj (<[k:=v]> m)) = renderOnline h (JObj m)).
Proof.
  split; [| split].
  - intros h hostText [_ ->]%escapeHTML_returned Hh.
    exists (markupOf h metaFoo). split; [apply renderOnline_metaFoo |].
    unfold markupOf, markupText, headText. cbn [host healthOf]. rewrite !sapp_assoc.
    rewrite (includes_skip "F" "oo" br) by reflexivity.
    rewrite (includes_skip "F" "oo" "<p><strong>Host:</strong> ") by reflexivity.
    apply includes_sep_app; [reflexivity | exact Hh |]. vm_compute. reflexivity.
  - intros h. exists (markupOf h metaFoo). split; [apply renderOnline_metaFoo |].
    unfold markupOf, markupText, headText. cbn [host healthOf]. rewrite !sapp_assoc.
    do 3 apply includes_app_r. vm_compute. reflexivity.
  - intros h m k v Hk. by apply renderOnline_unread.
Qed.

Lemma software_name_not_rendered_witness :
  exists markup,
    renderOnline "example.com" (JObj metaFoo) = Returned markup
    /\ includes "Foo" markup = false.
Proof.
  refine (proj1 software_name_not_rendered "example.com" "example.com" _ _).
  - reflexivity.
  - vm_compute. reflexivity.
Defined.

(** With a host name that holds Foo the markup holds it too, on the Host
    line. *)
Example host_named_foo :
  exists markup,
    renderOnline "Foo.example" (JObj metaFoo) = Returned markup
    /\ includes "Foo" markup = true.
Proof. eexists. split; vm_compute; reflexivity. Qed.

(** * Further properties of the script *)

(** ** [escapeHTML]: nothing is lost, and plain text is left alone *)

Lemma entity_head c : exists x r, entity c = String x r.
Proof.
  unfold entity.
  repeat match goal with
         | |- context [Ascii.eqb c ?x] => destruct (Ascii.eqb c x); [by eexists _, _ |]
         end.
  by eexists _, _.
Qed.

(** The entities and the characters left alone tell apart what they stand
    for, whatever follows them. *)
Lemma entity_prefix_inj c d x y : entity c +:+ x = entity d +:+ y -> c = d /\ x = y.
Proof.
  unfold entity.
  repeat match goal with
         | |- context [Ascii.eqb c ?k] => destruct (Ascii.eqb_spec c k) as [->|?]
         end;
    repeat match goal with
           | |- context [Ascii.eqb d ?k] => destruct (Ascii.eqb_spec d k) as [->|?]
           end;
    cbn [String.append]; intros H; try discriminate H;
    try (injection H as; subst; try done; split; congruence).
Qed.

Lemma replaceSpecials_inj s t : replaceSpecials s = replaceSpecials t -> s = t.
Proof.
  revert t. induction s as [|c s IH]; intros [|d t]; cbn [replaceSpecials]; intros H.
  - reflexivity.
  - destruct (entity_head d) as (x & r & E). rewrite E in H. discriminate H.
  - destruct (entity_head c) as (x & r & E). rewrite E in H. discriminate H.
  - apply entity_prefix_inj in H as [-> H]. f_equal. by apply IH.
Qed.

(** X1. [escapeHTML] loses nothing of a text: two texts that escape to the same
    markup are the same text. *)
Theorem escapeHTML_injective s t : escapeHTML (JStr s) = escapeHTML (JStr t) -> s = t.
Proof. rewrite !escapeHTML_str. intros [= H]. by apply replaceSpecials_inj. Qed.

Lemma escapeHTML_injective_witness :
  "<b>" = "<" +:+ "b>".
Proof. exact (escapeHTML_injective "<b>" ("<" +:+ "b>") eq_refl). Defined.

Lemma length_entity c : 1 <= String.length (entity c).
Proof. destruct (entity_head c) as (x & r & ->). simpl. lia. Qed.

Lemma length_replaceSpecials s : String.length s <= String.length (replaceSpecials s).
Proof.
  induction s as [|c s IH]; [done |].
  cbn [replaceSpecials String.length]. rewrite length_sapp.
  pose proof (length_entity c). lia.
Qed.

Lemma includes_char_cons c x s :
  includes (String c "") (String x s) = Ascii.eqb c x || includes (String c "") s.
Proof. cbn [includes startsWith]. by rewrite andb_true_r. Qed.

(** X2. A text that holds none of the five characters is its own escape, and
    no other text is: wherever one of the five stands, the text changes. *)
Theorem escapeHTML_plain_text s :
  escapeHTML (JStr s) = Returned s
  <-> forall c, c ∈ specialChars -> includes (String c "") s = false.
Proof.
  rewrite escapeHTML_str.
  assert (Returned (replaceSpecials s) = Returned s <-> replaceSpecials s = s) as ->
    by (split; [by intros [= ?] | by intros ->]).
  induction s as [|x s IH]; [done |].
  cbn [replaceSpecials]. split.
  - intros H. destruct (decide (x ∈ specialChars)) as [Hx|Hx].
    + exfalso. assert (entity x = "&amp;" \/ entity x = "&lt;" \/ entity x = "&gt;"
                       \/ entity x = "&quot;" \/ entity x = "&#39;") as He.
      { unfold specialChars, markupChars in Hx. apply list_elem_of_In in Hx.
        simpl in Hx. destruct Hx as [<-|[<-|[<-|[<-|[<-|[]]]]]]; auto. }
      pose proof (length_replaceSpecials s) as Hlen.
      assert (String.length (entity x +:+ replaceSpecials s) = S (String.length s)) as Hl
        by (by rewrite H).
      rewrite length_sapp in Hl.
      destruct He as [E|[E|[E|[E|E]]]]; rewrite E in Hl; simpl in Hl; lia.
    + rewrite (entity_other x Hx) in H. injection H as H. pose proof (proj1 IH H) as H'.
      intros c Hc. rewrite includes_char_cons, (H' c Hc), orb_false_r.
      apply Ascii.eqb_neq. by intros ->.
  - intros H. assert (x ∉ specialChars) as Hx.
    { intros Hx. specialize (H x Hx). rewrite includes_char_cons, Ascii.eqb_refl in H.
      discriminate H. }
    rewrite (entity_other x Hx). cbn [String.append]. f_equal. apply (proj2 IH).
    intros c Hc. specialize (H c Hc). rewrite includes_char_cons in H.
    by apply orb_false_elim in H as [_ H].
Qed.

Lemma escapeHTML_plain_text_witness :
  escapeHTML (JStr "misskey.io") = Returned "misskey.io".
Proof.
  apply escapeHTML_plain_text. intros c Hc. apply list_elem_of_In in Hc. simpl in Hc.
  destruct Hc as [<-|[<-|[<-|[<-|[<-|[]]]]]]; reflexivity.
Defined.

(** ** The markup is well bracketed *)

Lemma countChar_app c a b : countChar c (a +:+ b) = countChar c a + countChar c b.
Proof.
  induction a as [|x a IH]; [reflexivity |].
  cbn [String.append countChar]. rewrite IH. lia.
Qed.

Lemma countChar_none c s : includes (String c "") s = false -> countChar c s = 0.
Proof.
  induction s as [|x s IH]; [reflexivity |].
  rewrite includes_char_cons. intros H. apply orb_false_elim in H as [Hx Hs].
  cbn [countChar]. rewrite Hx. by rewrite IH.
Qed.

Lemma bracketExcess_app a b : bracketExcess (a +:+ b) = (bracketExcess a + bracketExcess b)%Z.
Proof. unfold bracketExcess. rewrite !countChar_app. lia. Qed.

Lemma quotesPaired_app a b :
  quotesPaired (a +:+ b) = Bool.eqb (quotesPaired a) (quotesPaired b).
Proof. unfold quotesPaired. by rewrite countChar_app, Nat.even_add. Qed.

Lemma countChar_escaped c v : c ∈ markupChars -> countChar c (escapedText v) = 0.
Proof. intros Hc. by apply countChar_none, replaceSpecials_no_markup. Qed.

Lemma bracketExcess_escaped v : bracketExcess (escapedText v) = 0%Z.
Proof.
  unfold bracketExcess.
  by rewrite !countChar_escaped by (unfold markupChars; set_solver).
Qed.

Lemma quotesPaired_escaped v : quotesPaired (escapedText v) = true.
Proof.
  unfold quotesPaired.
  by rewrite countChar_escaped by (unfold markupChars; set_solver).
Qed.

(** A text put together from template literals and escaped values: both
    measures are sums over the parts, and the parts are known. *)
Ltac bracket_tac :=
  rewrite ?bracketExcess_app, ?bracketExcess_escaped; vm_compute; reflexivity.

Ltac quotes_tac :=
  rewrite ?quotesPaired_app, ?quotesPaired_escaped; vm_compute; reflexivity.

Lemma anchorText_measures v : bracketExcess (anchorText v) = 0%Z /\ quotesPaired (anchorText v) = true.
Proof. unfold anchorText. split; [bracket_tac | quotes_tac]. Qed.

Lemma descText_measures health :
  bracketExcess (descText health) = 0%Z /\ quotesPaired (descText health) = true.
Proof.
  unfold descText. destruct (truthy _); split; try reflexivity; [bracket_tac | quotes_tac].
Qed.

Lemma contactText_measures health :
  bracketExcess (contactText health) = 0%Z
  /\ quotesPaired (contactText health) = true.
Proof.
  unfold contactText. destruct (truthy _); [apply anchorText_measures | by split].
Qed.

Lemma linkText_measures label v :
  bracketExcess label = 0%Z -> quotesPaired label = true ->
  bracketExcess (linkText label v) = 0%Z /\ quotesPaired (linkText label v) = true.
Proof.
  intros Hb Hq. unfold linkText. destruct (truthy v); [| by split].
  destruct (anchorText_measures v) as [Ha Hqa]. split.
  - rewrite !bracketExcess_app, Hb, Ha. reflexivity.
  - rewrite !quotesPaired_app, Hq, Hqa. reflexivity.
Qed.

Lemma maxLengthText_measures v :
  bracketExcess (maxLengthText v) = 0%Z /\ quotesPaired (maxLengthText v) = true.
Proof.
  unfold maxLengthText. destruct (truthy v); split; try reflexivity;
    [bracket_tac | quotes_tac].
Qed.

Lemma flatten_items_measures rules :
  bracketExcess (flatten (map ruleItem rules)) = 0%Z
  /\ quotesPaired (flatten (map ruleItem rules)) = true.
Proof.
  induction rules as [|r rules [IHb IHq]]; [by split |].
  cbn [map flatten fold_right]. unfold flatten in *. split.
  - rewrite bracketExcess_app, IHb. unfold ruleItem. bracket_tac.
  - rewrite quotesPaired_app, IHq. unfold ruleItem. quotes_tac.
Qed.

Lemma rulesText_measures v :
  bracketExcess (rulesText v) = 0%Z /\ quotesPaired (rulesText v) = true.
Proof.
  unfold rulesText. destruct (_ && _); [| by split].
  rewrite appendText_flatten.
  destruct (flatten_items_measures (elements v)) as [Hb Hq]. split.
  - rewrite !bracketExcess_app, Hb. reflexivity.
  - rewrite !quotesPaired_app, Hq. reflexivity.
Qed.

Lemma markupOf_measures h m :
  bracketExcess (markupOf h m) = 0%Z /\ quotesPaired (markupOf h m) = true.
Proof.
  unfold markupOf, markupText, headText.
  destruct (descText_measures (healthOf h m)) as [Hd Hdq].
  destruct (contactText_measures (healthOf h m)) as [Hc Hcq].
  destruct (maxLengthText_measures (prop m "maxNoteTextLength")) as [Hm Hmq].
  destruct (rulesText_measures (prop m "serverRules")) as [Hr Hrq].
  destruct (linkText_measures "Icon" (prop m "iconUrl") eq_refl eq_refl) as [H1 H1q].
  destruct (linkText_measures "Banner" (prop m "bannerUrl") eq_refl eq_refl) as [H2 H2q].
  destruct (linkText_measures "Terms of Service" (prop m "tosUrl") eq_refl eq_refl)
    as [H3 H3q].
  destruct (linkText_measures "Privacy Policy" (prop m "privacyPolicyUrl") eq_refl eq_refl)
    as [H4 H4q].
  split.
  - rewrite !bracketExcess_app, !bracketExcess_escaped, Hd, Hc, Hm, Hr, H1, H2, H3, H4.
    reflexivity.
  - rewrite !quotesPaired_app, !quotesPaired_escaped, Hdq, Hcq, Hmq, Hrq, H1q, H2q, H3q, H4q.
    reflexivity.
Qed.

(** X3. Whatever the host name, the metadata and the error message, the markup
    [doSearch] writes has as many opening as closing angle brackets and an
    even number of double quotes: no value opens a tag or leaves an
    attribute value open. *)
Theorem markup_well_bracketed :
  (forall h meta markup,
     renderOnline h meta = Returned markup ->
     countChar "<" markup = countChar ">" markup
     /\ Nat.Even (countChar dquote markup))
  /\ (forall h error,
        exists markup,
          renderOffline h error = Returned markup
          /\ countChar "<" markup = countChar ">" markup
          /\ Nat.Even (countChar dquote markup)).
Proof.
  assert (forall s, bracketExcess s = 0%Z -> quotesPaired s = true ->
                    countChar "<" s = countChar ">" s /\ Nat.Even (countChar dquote s))
    as Hmeasures.
  { intros s Hb Hq. split; [unfold bracketExcess in Hb; lia |].
    by apply Nat.even_spec. }
  split.
  - intros h meta markup H.
    destruct (renderOnline_cases h meta) as [[m Hm]|[e Hm]]; rewrite Hm in H; [| done].
    injection H as <-. apply Hmeasures; apply markupOf_measures.
  - intros h error. exists (offlineText h error). split; [apply renderOffline_text |].
    apply Hmeasures; unfold offlineText; [bracket_tac | quotes_tac].
Qed.

Lemma markup_well_bracketed_witness :
  countChar "<" (markupOf "example.com" (<["description" := JStr "a < b"]> ∅))
  = countChar ">" (markupOf "example.com" (<["description" := JStr "a < b"]> ∅)).
Proof.
  refine (proj1 (proj1 markup_well_bracketed "example.com"
                   (JObj (<["description" := JStr "a < b"]> ∅)) _ _)).
  vm_compute. reflexivity.
Defined.

(** ** Lines of the markup *)

Lemma includes_here a x b r : includes (a +:+ x +:+ b) (a +:+ x +:+ b +:+ r) = true.
Proof. apply includes_iff. exists "", r. by rewrite !sapp_assoc. Qed.

Lemma includes_here1 a r : includes a (a +:+ r) = true.
Proof. apply includes_iff. by exists "", r. Qed.

(** Finding a line of the template: the parts before it are passed over. *)
Ltac find_line :=
  unfold markupOf, markupText, headText; rewrite !sapp_assoc;
  repeat first [ apply includes_here | apply includes_here1 | apply includes_app_r ].

Lemma markupOf_contact_line h m :
  includes ("<p><strong>Contact:</strong> " +:+ contactText (healthOf h m) +:+ "</p>")
    (markupOf h m) = true.
Proof. find_line. Qed.

(** X4. The Contact line links to [inquiryUrl] when it is set, else to
    [repositoryUrl] when that is set, and else reads N/A; the link carries
    the escaped address as its target and as its text. *)
Theorem contact_prefers_inquiry h m markup :
  renderOnline h (JObj m) = Returned markup ->
  exists line,
    includes ("<p><strong>Contact:</strong> " +:+ line +:+ "</p>") markup = true
    /\ if truthy (prop m "inquiryUrl")
       then exists text, escapeHTML (prop m "inquiryUrl") = Returned text
                         /\ line = anchorMarkup text text
       else if truthy (prop m "repositoryUrl")
       then exists text, escapeHTML (prop m "repositoryUrl") = Returned text
                         /\ line = anchorMarkup text text
       else line = "N/A".
Proof.
  intros [Hr ->]%renderOnline_returned.
  exists (contactText (healthOf h m)). split; [apply markupOf_contact_line |].
  assert (printable (contactLink (healthOf h m)) = true) as Hp.
  { unfold renders in Hr. cbn [healthOf contactLink] in *.
    repeat (apply andb_prop in Hr as [Hr ?]). assumption. }
  unfold contactText, healthOf, or_ in *. cbn [contactLink] in *.
  destruct (truthy (prop m "inquiryUrl")) eqn:Hi.
  - rewrite Hi. exists (escapedText (prop m "inquiryUrl")).
    by rewrite escapeHTML_text, Hp.
  - destruct (truthy (prop m "repositoryUrl")) eqn:Hrepo; [| reflexivity].
    rewrite Hrepo. exists (escapedText (prop m "repositoryUrl")).
    by rewrite escapeHTML_text, Hp.
Qed.

Lemma contact_prefers_inquiry_witness :
  exists line,
    includes ("<p><strong>Contact:</strong> " +:+ line +:+ "</p>")
      (markupOf "example.com"
         (<["inquiryUrl" := JStr "https://a.example/ask"]>
            (<["repositoryUrl" := JStr "https://a.example/src"]> ∅))) = true
    /\ exists text,
         escapeHTML (JStr "https://a.example/ask") = Returned text
         /\ line = anchorMarkup text text.
Proof.
  refine (contact_prefers_inquiry "example.com"
            (<["inquiryUrl" := JStr "https://a.example/ask"]>
               (<["repositoryUrl" := JStr "https://a.example/src"]> ∅)) _ _).
  vm_compute. reflexivity.
Defined.

(** X5. A JSON value that is neither an object nor [null] has none of the
    properties read: a host that answers with a number, a text, a truth
    value or an array is shown like one that answers with the empty
    object, every field reading N/A and no server detail shown. *)
Theorem primitive_metadata_renders_empty h v :
  match v with JObj _ | JNull | JUndef => False | _ => True end ->
  renderOnline h v = renderOnline h (JObj ∅)
  /\ exists markup,
       renderOnline h v = Returned markup
       /\ Forall (fun line => includes line markup = true)
            ["<p><strong>Description:</strong> N/A</p>";
             "<p><strong>Version:</strong> N/A</p>";
             "<p><strong>Admin:</strong> N/A</p>";
             "<p><strong>Email:</strong> N/A</p>";
             "<p><strong>Contact:</strong> N/A</p>"]
       /\ includes "<a " markup = false.
Proof.
  intros Hv.
  rewrite (renderOnline_primitive h v Hv), renderOnline_obj.
  assert (renders ∅ = true) as -> by (vm_compute; reflexivity).
  split; [reflexivity |].
  exists (markupOf h ∅). split; [reflexivity |]. split.
  - repeat constructor; unfold markupOf, markupText, headText; rewrite !sapp_assoc;
      do 3 apply includes_app_r; vm_compute; reflexivity.
  - apply clean_includes. unfold markupOf. unfold_templates.
    unfold healthOf, prop. rewrite !lookup_empty.
    cbn [default from_option description contactLink truthy or_ id].
    unfold rulesText. cbn [truthy andb]. clean_tac.
Qed.

Lemma primitive_metadata_renders_empty_witness :
  renderOnline "example.com" (JArr [JStr "x"]) = renderOnline "example.com" (JObj ∅).
Proof. exact (proj1 (primitive_metadata_renders_empty "example.com" (JArr [JStr "x"]) I)). Defined.

(** ** [getMeta]: what it leaves alone, and how long it takes *)

Lemma settle_bounds reply t d :
  t <= d -> t <= snd (settle reply t d) <= d.
Proof.
  intros H. unfold settle. destruct (Nat.leb_spec d t); [simpl; lia |].
  destruct (Nat.ltb_spec (t + latency reply) d); simpl; lia.
Qed.

(** In every case [getMeta] leaves a world of this shape: one more signal,
    the POST and perhaps the GET recorded, at most one more console line,
    a clock within the deadline, and the page as it was. *)
Lemma getMeta_shape net host w :
  exists t new log,
    snd (getMeta net host w)
    = mkWorld t (signals w ++ [now w + 5000]) (requests w ++ new) (console w ++ log)
              (hostInput w) (resultDiv w)
    /\ now w <= t <= now w + 5000
    /\ (new = [postRequest host (length (signals w))]
        \/ new = [postRequest host (length (signals w));
                  getRequest host (length (signals w))])
    /\ length log <= 1.
Proof.
  destruct (settle (net POST (metaUrl host)) (now w) (now w + 5000)) as [resP tP] eqn:HP.
  pose proof (settle_bounds (net POST (metaUrl host)) (now w) (now w + 5000)) as HtP.
  rewrite HP in HtP. cbn [snd] in HtP.
  destruct (postFailed resP) eqn:Hfail.
  - destruct (settle (net GET (metaUrl host)) tP (now w + 5000)) as [resG tG] eqn:HG.
    pose proof (settle_bounds (net GET (metaUrl host)) tP (now w + 5000)) as HtG.
    rewrite HG in HtG. cbn [snd] in HtG.
    rewrite (getMeta_fallback net host w resP tP resG tG HP Hfail HG).
    exists tG, [postRequest host (length (signals w)); getRequest host (length (signals w))],
      (postLog host resP).
    split; [reflexivity |]. split; [lia |]. split; [by right |].
    destruct resP as [r|e]; cbn [postLog].
    + destruct (negb _ && negb _); simpl; lia.
    + destruct (String.eqb _ _); simpl; lia.
  - destruct resP as [r|e]; [| discriminate]. apply negb_false_iff in Hfail.
    rewrite (getMeta_post_ok net host w r tP HP Hfail).
    exists tP, [postRequest host (length (signals w))], [].
    split; [by rewrite app_nil_r |]. split; [lia |]. split; [by left | simpl; lia].
Qed.

(** [getMeta] neither reads nor writes the output region. *)
Lemma getMeta_frame net host w c :
  getMeta net host (withResult c w)
  = (fst (getMeta net host w), withResult c (snd (getMeta net host w))).
Proof.
  destruct (settle (net POST (metaUrl host)) (now w) (now w + 5000)) as [resP tP] eqn:HP.
  destruct (postFailed resP) eqn:Hfail.
  - destruct (settle (net GET (metaUrl host)) tP (now w + 5000)) as [resG tG] eqn:HG.
    rewrite (getMeta_fallback net host w resP tP resG tG HP Hfail HG).
    by rewrite (getMeta_fallback net host (withResult c w) resP tP resG tG HP Hfail HG).
  - destruct resP as [r|e]; [| discriminate]. apply negb_false_iff in Hfail.
    rewrite (getMeta_post_ok net host w r tP HP Hfail).
    by rewrite (getMeta_post_ok net host (withResult c w) r tP HP Hfail).
Qed.

(** [doSearch] on a host name, in terms of [getMeta] on the page as it
    was. *)
Lemma doSearch_cases net w host :
  trim (hostInput w) = host -> host <> "" ->
  doSearch net w
  = (Returned tt,
     match fst (getMeta net host w) with
     | Returned meta =>
         match renderOnline host meta with
         | Returned markup => withResult (Markup markup) (snd (getMeta net host w))
         | Threw e => offlineWorld host e (snd (getMeta net host w))
         end
     | Threw e => offlineWorld host e (snd (getMeta net host w))
     end).
Proof.
  intros Hhost Hne. rewrite (doSearch_run net w host Hhost Hne), getMeta_frame.
  destruct (fst (getMeta net host w)) as [meta|e]; [| reflexivity].
  by destruct (renderOnline host meta).
Qed.

(** X8. [getMeta] settles within the five seconds of its signal, and the clock
    does not run backwards; so does [doSearch], which waits for nothing
    else. *)
Theorem search_within_deadline net w :
  (forall host, now w <= now (snd (getMeta net host w)) <= now w + 5000)
  /\ now w <= now (snd (doSearch net w)) <= now w + 5000.
Proof.
  assert (forall host, now w <= now (snd (getMeta net host w)) <= now w + 5000) as Hg.
  { intros host. destruct (getMeta_shape net host w) as (t & new & log & -> & Ht & _).
    exact Ht. }
  split; [exact Hg |].
  destruct (decide (trim (hostInput w) = "")) as [Hb|Hne].
  - rewrite (doSearch_blank net w Hb). simpl. lia.
  - rewrite (doSearch_cases net w _ eq_refl Hne). cbn [snd].
    specialize (Hg (trim (hostInput w))).
    destruct (fst (getMeta net _ w)) as [meta|e]; [destruct (renderOnline _ meta) |];
      exact Hg.
Qed.

(** ** [doSearch]: what the output region shows *)

Lemma clean_escaped_tag p v : startsWith "<" p = true -> clean p (escapedText v) = true.
Proof.
  destruct p as [|c p]; [done |]. cbn [startsWith]. rewrite andb_true_r.
  intros <-%Ascii.eqb_eq. apply clean_escaped.
Qed.

(** Cleanness for a pattern given by name that starts with the opening
    angle bracket. *)
Ltac clean_tag_tac :=
  repeat match goal with
         | |- clean _ (escapedText _) = true => apply clean_escaped_tag; reflexivity
         | |- clean _ (_ +:+ _) = true => apply clean_app
         | |- clean _ (if ?b then _ else _) = true => destruct b
         | |- clean _ _ = true => vm_compute; reflexivity
         end.

Lemma clean_rulesText_tag p v :
  startsWith "<" p = true ->
  clean p ("<p><strong>Server Rules:</strong></p><ul class=" +:+ dq +:+ "rules" +:+ dq +:+ ">")
  = true ->
  clean p "<li>" = true -> clean p "</li>" = true -> clean p "</ul>" = true ->
  clean p "" = true ->
  clean p (rulesText v) = true.
Proof.
  intros Hp Hhead Hli Hli' Hul Hnil. unfold rulesText. destruct (_ && _); [| exact Hnil].
  rewrite appendText_flatten. apply clean_app; [apply clean_app; [exact Hhead |] | exact Hul].
  apply clean_flatten; [| exact Hnil].
  apply Forall_forall. intros s Hs. apply list_elem_of_fmap in Hs as [r [-> _]].
  unfold ruleItem. apply clean_app; [exact Hli |].
  apply clean_app; [by apply clean_escaped_tag | exact Hli'].
Qed.

(** The status line of each template is the label, the badge and the end
    of the paragraph. *)
Lemma online_status_line X :
  "<p><strong>Status:</strong> <span style=" +:+ dq +:+ "color:#7ee787;"
  +:+ dq +:+ ">Online</span></p>" +:+ X
  = ("<p><strong>Status:</strong> " +:+ onlineBadge +:+ "</p>") +:+ X.
Proof. reflexivity. Qed.

Lemma offline_status_line X :
  "<p><strong>Status:</strong> <span style=" +:+ dq +:+ "color:#f88;"
  +:+ dq +:+ ">Offline</span></p>" +:+ X
  = ("<p><strong>Status:</strong> " +:+ offlineBadge +:+ "</p>") +:+ X.
Proof. reflexivity. Qed.

Lemma online_not_offline h m : includes offlineBadge (markupOf h m) = false.
Proof.
  apply clean_includes. unfold markupOf, markupText.
  apply clean_app; [| apply clean_app].
  - unfold_templates. rewrite online_status_line. clean_tag_tac.
  - apply clean_rulesText_tag; vm_compute; reflexivity.
  - vm_compute; reflexivity.
Qed.

Lemma offline_not_online h error : includes onlineBadge (offlineText h error) = false.
Proof. apply clean_includes. unfold_templates. rewrite offline_status_line. clean_tag_tac. Qed.

Lemma online_status h m : includes onlineBadge (markupOf h m) = true.
Proof.
  unfold markupOf, markupText, headText. rewrite online_status_line, !sapp_assoc.
  do 6 apply includes_app_r. apply includes_here1.
Qed.

Lemma offline_status h error : includes offlineBadge (offlineText h error) = true.
Proof.
  unfold offlineText. rewrite offline_status_line, !sapp_assoc.
  do 6 apply includes_app_r. apply includes_here1.
Qed.

(** X10. When the host name is not blank [doSearch] returns normally, leaves
    the typed host name alone and always replaces the loading text by
    markup with exactly one of the two status badges: the Online badge when
    [getMeta] returned metadata that rendered, with nothing logged by
    [doSearch]; the Offline badge, with the message of the exception and one
    console line, when [getMeta] threw or the rendering did. *)
Theorem search_shows_one_status net w host :
  trim (hostInput w) = host -> host <> "" ->
  fst (doSearch net w) = Returned tt
  /\ hostInput (snd (doSearch net w)) = hostInput w
  /\ exists markup,
       resultDiv (snd (doSearch net w)) = Markup markup
       /\ ((includes onlineBadge markup = true /\ includes offlineBadge markup = false
            /\ console (snd (doSearch net w)) = console (snd (getMeta net host w))
            /\ exists meta,
                 fst (getMeta net host w) = Returned meta
                 /\ renderOnline host meta = Returned markup)
           \/ (includes offlineBadge markup = true /\ includes onlineBadge markup = false
               /\ exists e,
                    renderOffline host (message e) = Returned markup
                    /\ console (snd (doSearch net w))
                       = console (snd (getMeta net host w))
                         ++ [["Client-side error for " +:+ host +:+ ":"; message e]]
                    /\ (fst (getMeta net host w) = Threw e
                        \/ exists meta,
                             fst (getMeta net host w) = Returned meta
                             /\ renderOnline host meta = Threw e))).
Proof.
  intros Hhost Hne. rewrite (doSearch_cases net w host Hhost Hne). cbn [fst snd].
  destruct (getMeta_shape net host w) as (t & new & log & Hw & _).
  split; [reflexivity |].
  destruct (fst (getMeta net host w)) as [meta|e] eqn:Hres.
  - destruct (renderOnline host meta) as [markup|e] eqn:Hrender.
    + split; [by rewrite Hw |]. exists markup. split; [reflexivity |]. left.
      destruct (renderOnline_cases host meta) as [[m Hm]|[e Hm]];
        rewrite Hm in Hrender; [| done]. injection Hrender as <-.
      split; [apply online_status |]. split; [apply online_not_offline |].
      split; [reflexivity |]. by exists meta.
    + split; [by rewrite Hw |]. exists (offlineText host (message e)).
      split; [reflexivity |]. right.
      split; [apply offline_status |]. split; [apply offline_not_online |].
      exists e. split; [apply renderOffline_text |]. split; [reflexivity |]. right.
      by exists meta.
  - split; [by rewrite Hw |]. exists (offlineText host (message e)).
    split; [reflexivity |]. right.
    split; [apply offline_status |]. split; [apply offline_not_online |].
    exists e. split; [apply renderOffline_text |]. split; [reflexivity |]. by left.
Qed.

Lemma search_shows_one_status_witness :
  hostInput (snd (doSearch netDown world0)) = " example.com ".
Proof.
  refine (proj1 (proj2 (search_shows_one_status netDown world0 "example.com" _ _))).
  - vm_compute. reflexivity.
  - discriminate.
Defined.

(** X11. A host that answers 2xx with the JSON value [null] is shown as
    Offline: reading the first property of [null] throws, and the [catch]
    of [doSearch] renders the [TypeError]. *)
Theorem null_metadata_shows_offline net w host :
  trim (hostInput w) = host -> host <> "" ->
  fst (getMeta net host w) = Returned JNull ->
  exists e markup,
    name e = "TypeError"
    /\ renderOnline host JNull = Threw e
    /\ renderOffline host (message e) = Returned markup
    /\ resultDiv (snd (doSearch net w)) = Markup markup
    /\ includes offlineBadge markup = true.
Proof.
  intros Hhost Hne Hnull. rewrite (doSearch_cases net w host Hhost Hne), Hnull.
  eexists _, _. split; [| split; [reflexivity |]]; [reflexivity |].
  split; [apply renderOffline_text |]. split; [reflexivity | apply offline_status].
Qed.

Lemma null_metadata_shows_offline_witness :
  exists e markup,
    name e = "TypeError"
    /\ renderOnline "example.com" JNull = Threw e
    /\ renderOffline "example.com" (message e) = Returned markup
    /\ resultDiv (snd (doSearch (fun _ _ => mkReply 5 (Returned (mkResponse 200 (Returned JNull))))
                           world0))
       = Markup markup
    /\ includes offlineBadge markup = true.
Proof.
  refine (null_metadata_shows_offline
            (fun _ _ => mkReply 5 (Returned (mkResponse 200 (Returned JNull))))
            world0 "example.com" _ _ _).
  - vm_compute. reflexivity.
  - discriminate.
  - vm_compute. reflexivity.
Defined.

(** X12. [doSearch] calls [fetch] exactly when the trimmed host name is not
    empty, and then at most twice, first with POST and then, if at all,
    with GET, and only for the metadata address of the trimmed host name,
    over https. *)
Theorem search_contacts_only_meta net w :
  exists new,
    requests (snd (doSearch net w)) = requests w ++ new
    /\ length new <= 2
    /\ Forall (fun req => url req = "https://" +:+ trim (hostInput w) +:+ "/api/meta") new
    /\ (new = [] <-> trim (hostInput w) = "")
    /\ match new with
       | [] => True
       | first :: rest => method first = POST /\ Forall (fun req => method req = GET) rest
       end.
Proof.
  destruct (decide (trim (hostInput w) = "")) as [Hb|Hne].
  - rewrite (doSearch_blank net w Hb). exists []. rewrite app_nil_r. repeat split; auto.
  - rewrite (doSearch_cases net w _ eq_refl Hne). cbn [snd].
    destruct (getMeta_shape net (trim (hostInput w)) w) as (t & new & log & Hw & _ & Hnew & _).
    exists new.
    assert (requests (match fst (getMeta net (trim (hostInput w)) w) with
                      | Returned meta =>
                          match renderOnline (trim (hostInput w)) meta with
                          | Returned markup =>
                              withResult (Markup markup) (snd (getMeta net (trim (hostInput w)) w))
                          | Threw e => offlineWorld (trim (hostInput w)) e
                                         (snd (getMeta net (trim (hostInput w)) w))
                          end
                      | Threw e => offlineWorld (trim (hostInput w)) e
                                     (snd (getMeta net (trim (hostInput w)) w))
                      end) = requests w ++ new) as ->.
    { destruct (fst _) as [meta|e]; [destruct (renderOnline _ meta) |]; by rewrite Hw. }
    split; [reflexivity |].
    destruct Hnew as [-> | ->]; repeat split; simpl; auto; try discriminate;
      try (intros; contradiction); repeat constructor.
Qed.

(** ** [getMeta]: what it writes to the console for a POST that ran out of
    time *)

Lemma console_of_getMeta net host w resP tP :
  settle (net POST (metaUrl host)) (now w) (now w + 5000) = (resP, tP) ->
  console (snd (getMeta net host w))
  = console w ++ (if postFailed resP then postLog host resP else []).
Proof.
  intros HP. destruct (postFailed resP) eqn:Hfail.
  - destruct (settle (net GET (metaUrl host)) tP (now w + 5000)) as [resG tG] eqn:HG.
    by rewrite (getMeta_fallback net host w resP tP resG tG HP Hfail HG).
  - destruct resP as [r|e]; [| discriminate]. apply negb_false_iff in Hfail.
    rewrite (getMeta_post_ok net host w r tP HP Hfail). cbn [snd console].
    by rewrite app_nil_r.
Qed.

(** X9. The console line that says the POST timed out is written exactly when
    the POST threw an exception named AbortError.  The signal of
    [AbortSignal.timeout] aborts with a TimeoutError, so a POST that runs
    into the deadline is logged by the general line, with the message of
    that exception. *)
Theorem timeout_logged_as_failure net host w :
  (console (snd (getMeta net host w))
   = console w ++ [["POST attempt timed out for " +:+ host]]
   <-> exists e tP,
         settle (net POST (metaUrl host)) (now w) (now w + 5000) = (Threw e, tP)
         /\ name e = "AbortError")
  /\ (5000 <= latency (net POST (metaUrl host)) ->
      console (snd (getMeta net host w))
      = console w ++ [["POST attempt failed for " +:+ host +:+ ": "
                       +:+ message timeoutError]]).
Proof.
  destruct (settle (net POST (metaUrl host)) (now w) (now w + 5000)) as [resP tP] eqn:HP.
  rewrite (console_of_getMeta net host w resP tP HP). split.
  - split.
    + intros H. apply app_inv_head in H.
      destruct resP as [r|e]; cbn [postFailed postLog] in H.
      * destruct (negb (ok r)); [| discriminate H].
        destruct (negb _ && negb _); [| discriminate H].
        injection H as H. discriminate H.
      * destruct (String.eqb_spec (name e) "AbortError") as [Hn|Hn].
        -- by exists e, tP.
        -- injection H as H. discriminate H.
    + intros (e & tP' & [= -> <-] & Hn). cbn [postFailed postLog]. by rewrite Hn.
  - intros Hslow. unfold settle in HP.
    destruct (Nat.leb_spec (now w + 5000) (now w)); [lia |].
    destruct (Nat.ltb_spec (now w + latency (net POST (metaUrl host))) (now w + 5000));
      [lia |].
    by injection HP as <- <-.
Qed.

Lemma timeout_logged_as_failure_witness :
  console (snd (getMeta (fun _ _ => mkReply (5000 + 4000) (Returned (mkResponse 200 (Returned JNull))))
                  "example.com" world0))
  = [["POST attempt failed for example.com: " +:+ message timeoutError]].
Proof.
  refine (proj2 (timeout_logged_as_failure
                   (fun _ _ => mkReply (5000 + 4000) (Returned (mkResponse 200 (Returned JNull))))
                   "example.com" world0) _).
  apply Nat.leb_le. vm_compute. reflexivity.
Defined.

(** ** The listeners *)

Lemma dispatch_idle net ev w :
  startsSearch ev = false ->
  dispatch net ev w
  = (Returned tt, withHost (match ev with Typed v => v | _ => hostInput w end) w).
Proof.
  destruct ev as [|key|v]; cbn [startsSearch dispatch]; [done | | done].
  intros H. unfold keydownListener. rewrite H. by destruct w.
Qed.

(** The POST requests and the signals a search adds, and the field it
    leaves alone. *)
Lemma doSearch_posts net w :
  hostInput (snd (doSearch net w)) = hostInput w
  /\ map url (List.filter isPost (requests (snd (doSearch net w))))
     = map url (List.filter isPost (requests w))
       ++ (if String.eqb (trim (hostInput w)) "" then []
           else [metaUrl (trim (hostInput w))])
  /\ length (signals (snd (doSearch net w)))
     = length (signals w) + (if String.eqb (trim (hostInput w)) "" then 0 else 1).
Proof.
  destruct (String.eqb_spec (trim (hostInput w)) "") as [Hb|Hne].
  - rewrite (doSearch_blank net w Hb). cbn [snd]. by rewrite app_nil_r, Nat.add_0_r.
  - rewrite (doSearch_cases net w _ eq_refl Hne). cbn [snd].
    destruct (getMeta_shape net (trim (hostInput w)) w)
      as (t & new & log & Hshape & _ & Hnew & _).
    assert (forall w2,
              hostInput w2 = hostInput (snd (getMeta net (trim (hostInput w)) w)) ->
              requests w2 = requests (snd (getMeta net (trim (hostInput w)) w)) ->
              signals w2 = signals (snd (getMeta net (trim (hostInput w)) w)) ->
              hostInput w2 = hostInput w
              /\ map url (List.filter isPost (requests w2))
                 = map url (List.filter isPost (requests w))
                   ++ [metaUrl (trim (hostInput w))]
              /\ length (signals w2) = length (signals w) + 1) as Hany.
    { intros w2 -> -> ->. rewrite Hshape. cbn [hostInput requests signals].
      rewrite List.filter_app, map_app, length_app.
      destruct Hnew as [-> | ->]; done. }
    destruct (fst _) as [meta|e]; [destruct (renderOnline _ meta) |]; by apply Hany.
Qed.

Lemma searched_cons ev evs value :
  searched (ev :: evs) value
  = searched [ev] value
    ++ searched evs (match ev with Typed value' => value' | _ => value end).
Proof.
  destruct ev as [|key|value']; cbn [searched]; [| | reflexivity];
    by destruct (_ && _).
Qed.

(** What one event adds. *)
Lemma dispatch_posts net ev w :
  hostInput (snd (dispatch net ev w))
  = match ev with Typed value => value | _ => hostInput w end
  /\ map url (List.filter isPost (requests (snd (dispatch net ev w))))
     = map url (List.filter isPost (requests w))
       ++ map metaUrl (searched [ev] (hostInput w))
  /\ length (signals (snd (dispatch net ev w)))
     = length (signals w) + length (searched [ev] (hostInput w)).
Proof.
  destruct (startsSearch ev) eqn:Hev.
  - assert (dispatch net ev w = doSearch net w) as ->.
    { destruct ev as [|key|value]; [reflexivity | | discriminate].
      cbn [startsSearch] in Hev. cbn [dispatch]. unfold keydownListener. by rewrite Hev. }
    destruct (doSearch_posts net w) as (Hh & Hr & Hs). rewrite Hh, Hr, Hs.
    assert (searched [ev] (hostInput w)
            = if String.eqb (trim (hostInput w)) "" then []
              else [trim (hostInput w)]) as ->.
    { destruct ev as [|key|value]; [| | discriminate]; cbn [searched]; rewrite Hev;
        by destruct (String.eqb _ _). }
    split; [by destruct ev |]. by destruct (String.eqb _ _).
  - rewrite (dispatch_idle net ev w Hev). cbn [snd withHost hostInput requests signals].
    assert (searched [ev] (hostInput w) = []) as ->.
    { destruct ev as [|key|value]; [discriminate | | reflexivity].
      cbn [searched]. by rewrite Hev. }
    cbn [map length]. by rewrite app_nil_r, Nat.add_0_r.
Qed.

(** X14. Taking each search to run to its end before the next event: a
    click on the button and the Enter key in the field each run
    [doSearch], and another key does nothing.  So over any run of events
    the POST requests made are, in order, those to the metadata address of
    what the field holds, trimmed, at each click and each Enter where that
    is not empty, and one abort signal is made for each of them; the field
    holds what was typed last.  Through a run without click and Enter
    nothing is fetched, logged or shown: the page is as before, but for
    the text typed. *)
Theorem only_click_and_enter_search net :
  (forall w,
     dispatch net Click w = doSearch net w
     /\ dispatch net (KeyDown "Enter") w = doSearch net w)
  /\ (forall key w, key <> "Enter" -> dispatch net (KeyDown key) w = (Returned tt, w))
  /\ (forall evs w,
        map url (List.filter isPost (requests (session net evs w)))
        = map url (List.filter isPost (requests w))
          ++ map metaUrl (searched evs (hostInput w))
        /\ length (signals (session net evs w))
           = length (signals w) + length (searched evs (hostInput w))
        /\ hostInput (session net evs w) = lastTyped evs (hostInput w))
  /\ (forall evs w,
        Forall (fun ev => startsSearch ev = false) evs ->
        session net evs w = withHost (lastTyped evs (hostInput w)) w).
Proof.
  split; [by split |]. split; [| split].
  - intros key w Hkey. cbn [dispatch]. unfold keydownListener.
    apply String.eqb_neq in Hkey. by rewrite Hkey.
  - intros evs. induction evs as [|ev evs IH]; intros w.
    + cbn [session fold_left searched lastTyped map length].
      by rewrite app_nil_r, Nat.add_0_r.
    + change (session net (ev :: evs) w) with (session net evs (snd (dispatch net ev w))).
      destruct (IH (snd (dispatch net ev w))) as (Hr & Hs & Hh).
      destruct (dispatch_posts net ev w) as (Hh1 & Hr1 & Hs1).
      rewrite Hr, Hs, Hh, Hr1, Hs1, Hh1, (searched_cons ev evs).
      rewrite map_app, length_app, <- app_assoc.
      split; [reflexivity |]. split; [lia |]. by destruct ev.
  - intros evs. induction evs as [|ev evs IH]; intros w Hevs.
    + by destruct w.
    + apply Forall_cons in Hevs as [Hev Hevs].
      change (session net (ev :: evs) w) with (session net evs (snd (dispatch net ev w))).
      rewrite (dispatch_idle net ev w Hev). cbn [snd].
      rewrite (IH _ Hevs). by destruct ev.
Qed.

Lemma only_click_and_enter_search_witness :
  session netDown [Typed "a"; KeyDown "Tab"; Typed "ab"; KeyDown "Escape"] world0
  = withHost "ab" world0.
Proof.
  refine (proj2 (proj2 (proj2 (only_click_and_enter_search netDown))) _ world0 _).
  repeat constructor.
Defined.

(** Two searches in one run: the address typed is searched at the click,
    the one typed after it at the Enter. *)
Example two_searches :
  map url (List.filter isPost
             (requests (session netDown
                          [Typed "a.example"; Click; KeyDown "x"; Typed " b.example";
                           KeyDown "Enter"] world0)))
  = ["https://a.example/api/meta"; "https://b.example/api/meta"].
Proof. vm_compute. reflexivity. Qed.

Lemma doSearch_signals net w :
  signalsKnown w ->
  signalsKnown (snd (doSearch net w))
  /\ exists new,
       requests (snd (doSearch net w)) = requests w ++ new
       /\ Forall (fun req => Forall (fun old => signal old < signal req) (requests w)) new.
Proof.
  intros Hw. destruct (decide (trim (hostInput w) = "")) as [Hb|Hne].
  - rewrite (doSearch_blank net w Hb). split; [exact Hw |]. exists [].
    by rewrite app_nil_r.
  - rewrite (doSearch_cases net w _ eq_refl Hne). cbn [snd].
    destruct (getMeta_shape net (trim (hostInput w)) w)
      as (t & new & log & Hshape & _ & Hnew & _).
    set (w1 := snd (getMeta net (trim (hostInput w)) w)) in *.
    assert (signalsKnown w1
            /\ Forall (fun req => Forall (fun old => signal old < signal req) (requests w)) new)
      as [Hk Hfresh].
    { unfold signalsKnown. rewrite Hshape. cbn [requests signals].
      rewrite length_app. cbn [length]. split.
      - apply Forall_app. split.
        + eapply Forall_impl; [exact Hw |]. intros req Hreq. simpl in Hreq. lia.
        + destruct Hnew as [-> | ->]; repeat constructor; simpl; lia.
      - destruct Hnew as [-> | ->]; repeat constructor; exact Hw. }
    assert (forall w2, signals w2 = signals w1 -> requests w2 = requests w1 ->
                       signalsKnown w2
                       /\ exists new',
                            requests w2 = requests w ++ new'
                            /\ Forall (fun req => Forall (fun old => signal old < signal req)
                                                    (requests w)) new') as Hany.
    { intros w2 Hs Hr. split.
      - unfold signalsKnown. rewrite Hs, Hr. exact Hk.
      - exists new. rewrite Hr, Hshape. by split. }
    destruct (fst _) as [meta|e]; [destruct (renderOnline _ meta) |]; by apply Hany.
Qed.

(** X15. Each search has a signal of its own.  On a page where every recorded
    request carries a signal that exists, every request an event adds
    carries a signal newer than those of all the requests before; and this
    holds throughout any run of events. *)
Theorem each_search_own_signal net w :
  signalsKnown w ->
  (forall ev,
     signalsKnown (snd (dispatch net ev w))
     /\ exists new,
          requests (snd (dispatch net ev w)) = requests w ++ new
          /\ Forall (fun req => Forall (fun old => signal old < signal req) (requests w)) new)
  /\ (forall evs, signalsKnown (session net evs w)).
Proof.
  assert (forall w ev, signalsKnown w ->
            signalsKnown (snd (dispatch net ev w))
            /\ exists new,
                 requests (snd (dispatch net ev w)) = requests w ++ new
                 /\ Forall (fun req => Forall (fun old => signal old < signal req)
                                         (requests w)) new) as Hstep.
  { clear w. intros w ev Hw. destruct (startsSearch ev) eqn:Hev.
    - destruct ev as [|key|v]; cbn [dispatch]; [by apply doSearch_signals | | done].
      unfold keydownListener. cbn [startsSearch] in Hev. rewrite Hev.
      by apply doSearch_signals.
    - rewrite (dispatch_idle net ev w Hev). split; [exact Hw |].
      exists []. by rewrite app_nil_r. }
  intros Hw. split; [intros ev; by apply Hstep |].
  intros evs. revert w Hw. induction evs as [|ev evs IH]; intros w Hw; [exact Hw |].
  change (session net (ev :: evs) w) with (session net evs (snd (dispatch net ev w))).
  apply IH. by apply Hstep.
Qed.

Lemma each_search_own_signal_witness :
  signalsKnown (session netDown [Click; Typed "b.example"; KeyDown "Enter"] world0).
Proof.
  refine (proj2 (each_search_own_signal netDown world0 _) _).
  constructor.
Defined.

(** ** The host name [doSearch] uses *)

Lemma srev_app_spec s acc : String.rev_app s acc = String.rev s +:+ acc.
Proof.
  unfold String.rev. revert acc. induction s as [|c s IH]; intros acc; [reflexivity |].
  cbn [String.rev_app]. rewrite (IH (String c acc)), (IH (String c "")).
  by rewrite sapp_assoc.
Qed.

Lemma srev_cons c s : String.rev (String c s) = String.rev s +:+ String c "".
Proof. unfold String.rev at 1. cbn [String.rev_app]. apply srev_app_spec. Qed.

Lemma srev_sapp a b : String.rev (a +:+ b) = String.rev b +:+ String.rev a.
Proof.
  induction a as [|c a IH].
  - by rewrite sapp_nil_r.
  - cbn [String.append]. by rewrite !srev_cons, IH, sapp_assoc.
Qed.

Lemma srev_involutive s : String.rev (String.rev s) = s.
Proof.
  induction s as [|c s IH]; [reflexivity |].
  by rewrite srev_cons, srev_sapp, IH.
Qed.

Lemma length_srev s : String.length (String.rev s) = String.length s.
Proof.
  induction s as [|c s IH]; [reflexivity |].
  rewrite srev_cons, length_sapp, IH. simpl. lia.
Qed.

Lemma stripPrefix_some p s r : stripPrefix p s = Some r <-> s = p +:+ r.
Proof.
  revert s. induction p as [|a p IH]; intros s.
  - destruct s; simpl; split; congruence.
  - destruct s as [|b s]; cbn [stripPrefix String.append]; [split; discriminate |].
    destruct (Ascii.eqb_spec a b) as [->|Hne].
    + rewrite IH. split; [by intros -> | by intros [= ->]].
    + split; [discriminate | intros [= ? _]; done].
Qed.

Lemma stripOne_some pats s r :
  stripOne pats s = Some r -> exists p, p ∈ pats /\ s = p +:+ r.
Proof.
  induction pats as [|p pats IH]; [discriminate |]. cbn [stripOne].
  destruct (stripPrefix p s) as [r'|] eqn:Hp.
  - intros [= ->]. exists p. split; [left | by apply stripPrefix_some].
  - intros H. destruct (IH H) as (q & Hq & ->). exists q. split; [by right | done].
Qed.

Lemma stripOne_none pats s :
  stripOne pats s = None <-> forall p r, p ∈ pats -> s <> p +:+ r.
Proof.
  induction pats as [|p pats IH]; cbn [stripOne].
  - split; [intros _ p r Hp; by apply elem_of_nil in Hp | done].
  - destruct (stripPrefix p s) as [r'|] eqn:Hp.
    + split; [discriminate |]. intros H. apply stripPrefix_some in Hp.
      exfalso. apply (H p r'); [left | done].
    + rewrite IH. split.
      * intros H q r Hq. apply elem_of_cons in Hq as [->|Hq]; [| by apply H].
        intros E. apply stripPrefix_some in E. congruence.
      * intros H q r Hq. apply H. by right.
Qed.

Lemma stripAll_fixed pats fuel s : stripOne pats s = None -> stripAll pats fuel s = s.
Proof. intros H. destruct fuel; [reflexivity |]. cbn [stripAll]. by rewrite H. Qed.

(** What [stripAll] takes away is a run of the patterns. *)
Lemma stripAll_split pats fuel s :
  exists l, Forall (fun p => p ∈ pats) l /\ s = flatten l +:+ stripAll pats fuel s.
Proof.
  revert s. induction fuel as [|fuel IH]; intros s.
  - exists []. by split.
  - cbn [stripAll]. destruct (stripOne pats s) as [r|] eqn:Hs.
    + destruct (stripOne_some pats s r Hs) as (p & Hp & ->).
      destruct (IH r) as (l & Hl & Hr). exists (p :: l). split; [by constructor |].
      cbn [flatten fold_right]. fold (flatten l). by rewrite sapp_assoc, <- Hr.
    + exists []. by split.
Qed.

(** With fuel for every character, nothing is left to take away. *)
Lemma stripAll_done pats fuel s :
  Forall (fun p => p <> "") pats -> String.length s <= fuel ->
  stripOne pats (stripAll pats fuel s) = None.
Proof.
  intros Hpats. revert s. induction fuel as [|fuel IH]; intros s Hlen.
  - destruct s; [| simpl in Hlen; lia]. apply stripOne_none. intros p r Hp E.
    symmetry in E. apply sapp_eq_nil in E as [-> _].
    by eapply Forall_forall in Hpats; [| exact Hp].
  - cbn [stripAll]. destruct (stripOne pats s) as [r|] eqn:Hs; [| exact Hs].
    apply IH. destruct (stripOne_some pats s r Hs) as (p & Hp & ->).
    rewrite length_sapp in Hlen. eapply Forall_forall in Hpats; [| exact Hp].
    destruct p; [done |]. simpl in Hlen. lia.
Qed.

Lemma whiteSpace_nonempty : Forall (fun p => p <> "") whiteSpace.
Proof. vm_compute. repeat constructor; discriminate. Qed.

Lemma whiteSpace_rev_nonempty : Forall (fun p => p <> "") (map String.rev whiteSpace).
Proof. vm_compute. repeat constructor; discriminate. Qed.

Lemma srev_flatten l : String.rev (flatten l) = flatten (map String.rev (reverse l)).
Proof.
  induction l as [|p l IH]; [reflexivity |].
  cbn [flatten fold_right]. fold (flatten l). rewrite srev_sapp, IH, reverse_cons, map_app.
  cbn [map]. clear IH. induction (map String.rev (reverse l)) as [|q qs IHq].
  - simpl. by rewrite sapp_nil_r.
  - cbn [app flatten fold_right]. fold (flatten qs). fold (flatten (qs ++ [String.rev p])).
    by rewrite sapp_assoc, IHq.
Qed.

(** [trim] takes white space off both ends and nothing else, and leaves
    none at either end. *)
Lemma trim_spec s :
  (exists l r, WhitespaceOnly l /\ WhitespaceOnly r /\ s = l +:+ trim s +:+ r)
  /\ stripOne whiteSpace (trim s) = None
  /\ stripOne (map String.rev whiteSpace) (String.rev (trim s)) = None.
Proof.
  unfold trim. set (t := trimStart s).
  destruct (stripAll_split whiteSpace (String.length s) s) as (l & Hl & Hs).
  fold (trimStart s) in Hs. fold t in Hs.
  assert (stripOne whiteSpace t = None) as Ht
    by (apply stripAll_done; [apply whiteSpace_nonempty | done]).
  destruct (stripAll_split (map String.rev whiteSpace) (String.length t) (String.rev t))
    as (l' & Hl' & Hrev).
  assert (String.rev (trimEnd t)
          = stripAll (map String.rev whiteSpace) (String.length t) (String.rev t)) as Hend
    by (unfold trimEnd; by rewrite srev_involutive).
  rewrite <- Hend in Hrev.
  assert (t = trimEnd t +:+ String.rev (flatten l')) as Hsplit.
  { apply (f_equal String.rev) in Hrev. by rewrite srev_sapp, !srev_involutive in Hrev. }
  split; [| split].
  - exists (flatten l), (String.rev (flatten l')). split; [by exists l |]. split.
    + exists (map String.rev (reverse l')). split; [| by rewrite srev_flatten].
      apply Forall_forall. intros p Hp. apply list_elem_of_fmap in Hp as (q & -> & Hq).
      rewrite elem_of_reverse in Hq. eapply Forall_forall in Hl'; [| exact Hq].
      apply list_elem_of_fmap in Hl' as (q' & -> & Hq'). by rewrite srev_involutive.
    + by rewrite <- Hsplit.
  - apply stripOne_none. intros p r Hp E.
    apply (proj1 (stripOne_none whiteSpace t) Ht p (r +:+ String.rev (flatten l')) Hp).
    by rewrite Hsplit, E, sapp_assoc.
  - rewrite Hend. apply stripAll_done; [apply whiteSpace_rev_nonempty |].
    by rewrite length_srev.
Qed.

Lemma trim_idempotent s : trim (trim s) = trim s.
Proof.
  destruct (trim_spec s) as (_ & Hstart & Hend). set (c := trim s) in *.
  unfold trim, trimStart. rewrite (stripAll_fixed _ _ _ Hstart).
  unfold trimEnd. rewrite (stripAll_fixed _ _ _ Hend). apply srev_involutive.
Qed.

Lemma getMeta_frame_host net host w v :
  getMeta net host (withHost v w)
  = (fst (getMeta net host w), withHost v (snd (getMeta net host w))).
Proof.
  destruct (settle (net POST (metaUrl host)) (now w) (now w + 5000)) as [resP tP] eqn:HP.
  destruct (postFailed resP) eqn:Hfail.
  - destruct (settle (net GET (metaUrl host)) tP (now w + 5000)) as [resG tG] eqn:HG.
    rewrite (getMeta_fallback net host w resP tP resG tG HP Hfail HG).
    by rewrite (getMeta_fallback net host (withHost v w) resP tP resG tG HP Hfail HG).
  - destruct resP as [r|e]; [| discriminate]. apply negb_false_iff in Hfail.
    rewrite (getMeta_post_ok net host w r tP HP Hfail).
    by rewrite (getMeta_post_ok net host (withHost v w) r tP HP Hfail).
Qed.

(** X13. The host name [doSearch] works with is the text typed without the
    white space around it: the text is that name between two runs of white
    space, and the name neither starts nor ends with white space.  So the
    padding makes no difference: a search from the padded text leaves what
    a search from the bare name leaves, the field apart. *)
Theorem search_ignores_padding net w :
  (exists l r,
     WhitespaceOnly l /\ WhitespaceOnly r
     /\ hostInput w = l +:+ trim (hostInput w) +:+ r)
  /\ (forall p x, p ∈ whiteSpace ->
        trim (hostInput w) <> p +:+ x /\ trim (hostInput w) <> x +:+ p)
  /\ snd (doSearch net w)
     = withHost (hostInput w) (snd (doSearch net (withHost (trim (hostInput w)) w))).
Proof.
  destruct (trim_spec (hostInput w)) as (Hsplit & Hstart & Hend).
  split; [exact Hsplit |]. split.
  - intros p x Hp. split.
    + by apply (proj1 (stripOne_none _ _) Hstart).
    + intros E. apply (proj1 (stripOne_none _ _) Hend (String.rev p) (String.rev x)).
      * by apply list_elem_of_fmap_2.
      * by rewrite E, srev_sapp.
  - set (host := trim (hostInput w)).
    assert (trim (hostInput (withHost host w)) = host) as Hbare by apply trim_idempotent.
    destruct (decide (host = "")) as [Hb|Hne].
    + rewrite (doSearch_blank net w Hb).
      rewrite (doSearch_blank net (withHost host w)) by (by rewrite Hbare).
      by destruct w.
    + rewrite (doSearch_cases net w host eq_refl Hne).
      rewrite (doSearch_cases net (withHost host w) host Hbare Hne).
      rewrite getMeta_frame_host. cbn [fst snd].
      destruct (getMeta_shape net host w) as (t & new & log & -> & _).
      destruct (fst (getMeta net host w)) as [meta|e];
        [destruct (renderOnline host meta) |]; reflexivity.
Qed.

Lemma search_ignores_padding_witness :
  trim (hostInput world0) <> " " +:+ "example.com"
  /\ trim (hostInput world0) <> "example.com" +:+ " ".
Proof.
  refine (proj1 (proj2 (search_ignores_padding netDown world0)) " " "example.com" _).
  apply list_elem_of_In. vm_compute. tauto.
Defined.

(** ** The lines of the health block and of the server details *)

Lemma or_null v x : or_ (or_ v JNull) x = or_ v x.
Proof. unfold or_. destruct (truthy v) eqn:H; [by rewrite H | reflexivity]. Qed.

Lemma markupOf_health_lines h m :
  includes ("<p><strong>Host:</strong> " +:+ escapedText (JStr h) +:+ "</p>") (markupOf h m)
  = true
  /\ includes ("<p><strong>Version:</strong> "
               +:+ escapedText (or_ (prop m "version") (JStr "N/A")) +:+ "</p>")
       (markupOf h m) = true
  /\ includes ("<p><strong>Admin:</strong> "
               +:+ escapedText (or_ (prop m "maintainerName") (JStr "N/A")) +:+ "</p>")
       (markupOf h m) = true
  /\ includes ("<p><strong>Email:</strong> "
               +:+ escapedText (or_ (prop m "maintainerEmail") (JStr "N/A")) +:+ "</p>")
       (markupOf h m) = true.
Proof.
  rewrite <- (or_null (prop m "version")), <- (or_null (prop m "maintainerName")),
    <- (or_null (prop m "maintainerEmail")).
  unfold markupOf, healthOf. repeat split; find_line.
Qed.

(** The conversions of the health block succeed where the renderer
    returns. *)
Lemma renders_health m :
  renders m = true ->
  printable (prop m "version") = true
  /\ printable (prop m "maintainerName") = true
  /\ printable (prop m "maintainerEmail") = true
  /\ printable (prop m "description") = true.
Proof.
  unfold renders. cbn [healthOf version adminName adminEmail description contactLink].
  rewrite !(printable_or _ JNull) by reflexivity. intros Hr.
  repeat (apply andb_prop in Hr as [Hr ?]). by repeat split.
Qed.

(** X6. The health block shows the host name typed and, for the version, the
    maintainer's name and the maintainer's address, the escaped value of
    [version], [maintainerName] and [maintainerEmail] or N/A. *)
Theorem health_lines h m markup :
  renderOnline h (JObj m) = Returned markup ->
  exists hostText versionText adminText emailText,
    escapeHTML (JStr h) = Returned hostText
    /\ escapeHTML (or_ (prop m "version") (JStr "N/A")) = Returned versionText
    /\ escapeHTML (or_ (prop m "maintainerName") (JStr "N/A")) = Returned adminText
    /\ escapeHTML (or_ (prop m "maintainerEmail") (JStr "N/A")) = Returned emailText
    /\ includes ("<p><strong>Host:</strong> " +:+ hostText +:+ "</p>") markup = true
    /\ includes ("<p><strong>Version:</strong> " +:+ versionText +:+ "</p>") markup = true
    /\ includes ("<p><strong>Admin:</strong> " +:+ adminText +:+ "</p>") markup = true
    /\ includes ("<p><strong>Email:</strong> " +:+ emailText +:+ "</p>") markup = true.
Proof.
  intros [Hr ->]%renderOnline_returned.
  destruct (renders_health m Hr) as (Hv & Ha & He & _).
  destruct (markupOf_health_lines h m) as (L1 & L2 & L3 & L4).
  eexists _, _, _, _.
  rewrite !escapeHTML_text, !printable_or, Hv, Ha, He by reflexivity.
  repeat split; assumption.
Qed.

Lemma health_lines_witness :
  exists hostText versionText adminText emailText,
    escapeHTML (JStr "example.com") = Returned hostText
    /\ escapeHTML (or_ (prop (<["maintainerName" := JStr "ai"]> ∅) "version") (JStr "N/A"))
       = Returned versionText
    /\ escapeHTML (or_ (prop (<["maintainerName" := JStr "ai"]> ∅) "maintainerName")
                       (JStr "N/A")) = Returned adminText
    /\ escapeHTML (or_ (prop (<["maintainerName" := JStr "ai"]> ∅) "maintainerEmail")
                       (JStr "N/A")) = Returned emailText
    /\ includes ("<p><strong>Host:</strong> " +:+ hostText +:+ "</p>")
         (markupOf "example.com" (<["maintainerName" := JStr "ai"]> ∅)) = true
    /\ includes ("<p><strong>Version:</strong> " +:+ versionText +:+ "</p>")
         (markupOf "example.com" (<["maintainerName" := JStr "ai"]> ∅)) = true
    /\ includes ("<p><strong>Admin:</strong> " +:+ adminText +:+ "</p>")
         (markupOf "example.com" (<["maintainerName" := JStr "ai"]> ∅)) = true
    /\ includes ("<p><strong>Email:</strong> " +:+ emailText +:+ "</p>")
         (markupOf "example.com" (<["maintainerName" := JStr "ai"]> ∅)) = true.
Proof.
  refine (health_lines "example.com" (<["maintainerName" := JStr "ai"]> ∅) _ _).
  vm_compute. reflexivity.
Defined.

(** Cleanness from what is known: the parts listed, the escaped values,
    and what follows from them. *)
Ltac clean_known_tac :=
  repeat match goal with
         | H : clean ?p ?x = true |- clean ?p ?x = true => exact H
         | |- clean _ (escapedText _) = true => apply clean_escaped_tag; assumption
         | |- clean _ (_ +:+ _) = true => apply clean_app
         | |- clean _ (if ?b then _ else _) = true => destruct b
         end.

Ltac split_fixed H :=
  unfold fixedClean, fixedParts in H; cbn [forallb] in H;
  repeat (let H' := fresh "Hpart" in apply andb_prop in H as [H' H]).

(** A pattern that opens with the angle bracket and is clean for the fixed
    parts is clean for the whole markup once it is clean for the six
    optional lines. *)
Lemma clean_markup_but p h m :
  startsWith "<" p = true -> fixedClean p = true ->
  clean p (descText (healthOf h m)) = true ->
  clean p (maxLengthText (prop m "maxNoteTextLength")) = true ->
  clean p (linkText "Icon" (prop m "iconUrl")) = true ->
  clean p (linkText "Banner" (prop m "bannerUrl")) = true ->
  clean p (linkText "Terms of Service" (prop m "tosUrl")) = true ->
  clean p (linkText "Privacy Policy" (prop m "privacyPolicyUrl")) = true ->
  clean p (markupOf h m) = true.
Proof.
  intros Hp Hfixed Hd Hm Hi Hb Ht Hv. split_fixed Hfixed.
  assert (clean p (rulesText (prop m "serverRules")) = true) as Hr.
  { apply clean_rulesText_tag; try assumption. clean_known_tac. }
  unfold markupOf, markupText, headText, contactText, anchorText. clean_known_tac.
Qed.

Lemma clean_linkText p label v :
  startsWith "<" p = true -> fixedClean p = true ->
  clean p ("<p><strong>" +:+ label +:+ ":</strong> ") = true ->
  clean p (linkText label v) = true.
Proof.
  intros Hp Hfixed Hhead. split_fixed Hfixed. unfold linkText, anchorText.
  destruct (truthy v); [| assumption].
  replace ("<p><strong>" +:+ label +:+ ":</strong> " +:+
           ("<a href=" +:+ dq +:+ escapedText v +:+ dq +:+ " target=" +:+ dq +:+ "_blank"
            +:+ dq +:+ " rel=" +:+ dq +:+ "noopener" +:+ dq +:+ ">" +:+ escapedText v
            +:+ "</a>") +:+ "</p>")
    with (("<p><strong>" +:+ label +:+ ":</strong> ") +:+
          ("<a href=" +:+ dq +:+ escapedText v +:+ dq +:+ " target=" +:+ dq +:+ "_blank"
           +:+ dq +:+ " rel=" +:+ dq +:+ "noopener" +:+ dq +:+ ">" +:+ escapedText v
           +:+ "</a>") +:+ "</p>")
    by (by rewrite !sapp_assoc).
  clean_known_tac.
Qed.

Lemma clean_maxLengthText p v :
  startsWith "<" p = true -> fixedClean p = true ->
  clean p "<p><strong>Max Note Length:</strong> " = true ->
  clean p (maxLengthText v) = true.
Proof.
  intros Hp Hfixed Hhead. split_fixed Hfixed. unfold maxLengthText. clean_known_tac.
Qed.

Lemma clean_descText p health :
  startsWith "<" p = true -> fixedClean p = true ->
  clean p "<p><strong>Description:</strong></p><p class=" = true ->
  clean p "description" = true ->
  clean p "<p><strong>Description:</strong> N/A</p>" = true ->
  clean p (descText health) = true.
Proof.
  intros Hp Hfixed H1 H2 H3. split_fixed Hfixed. unfold descText. clean_known_tac.
Qed.

Lemma linkText_shows label v :
  truthy v = true ->
  includes ("<strong>" +:+ label +:+ ":</strong>") (linkText label v) = true.
Proof.
  intros H. unfold linkText. rewrite H. apply includes_iff.
  exists "<p>", (" " +:+ anchorText v +:+ "</p>"). by rewrite !sapp_assoc.
Qed.

(** A part of the head of the template occurs in the markup. *)
Ltac in_markup H :=
  unfold markupOf, markupText, headText; rewrite !sapp_assoc;
  repeat first [ solve [apply includes_app_l; exact H] | apply includes_app_r ].

Lemma maxLengthText_shows v :
  truthy v = true ->
  includes "<strong>Max Note Length:</strong>" (maxLengthText v) = true.
Proof.
  intros H. unfold maxLengthText. rewrite H. apply includes_iff.
  exists "<p>", (" " +:+ escapedText v +:+ "</p>"). reflexivity.
Qed.

Lemma descText_shows health :
  truthy (description health) = true ->
  includes descriptionOpen (descText health) = true.
Proof.
  intros H. unfold descText, descriptionOpen. rewrite H. apply includes_iff.
  exists "<p><strong>Description:</strong></p>", (escapedText (description health) +:+ "</p>").
  by rewrite !sapp_assoc.
Qed.

(** One optional line against a pattern: the line is either clean by its
    opening, or it is the one the pattern names and is left out. *)
Ltac optional_line H :=
  first
    [ solve [ apply clean_linkText; vm_compute; reflexivity ]
    | solve [ apply clean_maxLengthText; vm_compute; reflexivity ]
    | solve [ apply clean_descText; vm_compute; reflexivity ]
    | solve [ unfold linkText, maxLengthText, descText; rewrite H; vm_compute; reflexivity ] ].

Ltac line_absent H :=
  apply clean_includes, clean_markup_but;
  [ reflexivity | vm_compute; reflexivity | optional_line H .. ].

Lemma markupOf_optional_lines h m :
  includes "<strong>Icon:</strong>" (markupOf h m) = truthy (prop m "iconUrl")
  /\ includes "<strong>Banner:</strong>" (markupOf h m) = truthy (prop m "bannerUrl")
  /\ includes "<strong>Terms of Service:</strong>" (markupOf h m) = truthy (prop m "tosUrl")
  /\ includes "<strong>Privacy Policy:</strong>" (markupOf h m)
     = truthy (prop m "privacyPolicyUrl")
  /\ includes "<strong>Max Note Length:</strong>" (markupOf h m)
     = truthy (prop m "maxNoteTextLength")
  /\ includes descriptionOpen (markupOf h m) = truthy (prop m "description").
Proof.
  repeat split.
  - destruct (truthy (prop m "iconUrl")) eqn:H.
    + pose proof (linkText_shows "Icon" _ H) as Hin. in_markup Hin.
    + line_absent H.
  - destruct (truthy (prop m "bannerUrl")) eqn:H.
    + pose proof (linkText_shows "Banner" _ H) as Hin. in_markup Hin.
    + line_absent H.
  - destruct (truthy (prop m "tosUrl")) eqn:H.
    + pose proof (linkText_shows "Terms of Service" _ H) as Hin. in_markup Hin.
    + line_absent H.
  - destruct (truthy (prop m "privacyPolicyUrl")) eqn:H.
    + pose proof (linkText_shows "Privacy Policy" _ H) as Hin. in_markup Hin.
    + line_absent H.
  - destruct (truthy (prop m "maxNoteTextLength")) eqn:H.
    + pose proof (maxLengthText_shows _ H) as Hin. in_markup Hin.
    + line_absent H.
  - assert (truthy (description (healthOf h m)) = truthy (prop m "description")) as Hd.
    { unfold healthOf, or_. cbn [description].
      destruct (truthy (prop m "description")) eqn:E; [exact E | reflexivity]. }
    destruct (truthy (prop m "description")) eqn:H.
    + pose proof (descText_shows (healthOf h m) Hd) as Hin. in_markup Hin.
    + line_absent Hd.
Qed.

(** X7. An optional line is in the markup exactly when its property is set:
    the four link lines, the line of the maximal note length and the
    paragraph of the description.  No other value of the metadata can
    bring such a line in. *)
Theorem optional_lines_iff_set h m markup :
  renderOnline h (JObj m) = Returned markup ->
  includes "<strong>Icon:</strong>" markup = truthy (prop m "iconUrl")
  /\ includes "<strong>Banner:</strong>" markup = truthy (prop m "bannerUrl")
  /\ includes "<strong>Terms of Service:</strong>" markup = truthy (prop m "tosUrl")
  /\ includes "<strong>Privacy Policy:</strong>" markup = truthy (prop m "privacyPolicyUrl")
  /\ includes "<strong>Max Note Length:</strong>" markup
     = truthy (prop m "maxNoteTextLength")
  /\ includes descriptionOpen markup = truthy (prop m "description").
Proof. intros [_ ->]%renderOnline_returned. apply markupOf_optional_lines. Qed.

Lemma optional_lines_iff_set_witness :
  includes "<strong>Icon:</strong>" (markupOf "example.com" (<["bannerUrl" := JStr "Icon:"]> ∅))
  = truthy (prop (<["bannerUrl" := JStr "Icon:"]> ∅) "iconUrl").
Proof.
  refine (proj1 (optional_lines_iff_set "example.com" (<["bannerUrl" := JStr "Icon:"]> ∅) _ _)).
  vm_compute. reflexivity.
Defined.

(** ** Falsy and missing properties *)

Lemma markupOf_description_line h m :
  includes (descText (healthOf h m)) (markupOf h m) = true.
Proof. find_line. Qed.

(** C10. A property whose value is falsy (the empty string, 0, false or
    null) is read like a missing one: the health object [doSearch] builds
    and what the renderer gives are those of the metadata without the
    property.  In the health object each field holds its property when
    that is truthy, else its alias ([name] for [softwareName],
    [repositoryUrl] for [inquiryUrl]) when that is truthy, else [null];
    and in the markup a falsy [description], [version], [maintainerName]
    or [maintainerEmail] reads N/A, a falsy [inquiryUrl] gives way to the
    link to [repositoryUrl] or, without one, to N/A, and a falsy
    [maxNoteTextLength] leaves its line out.  So for the empty string and
    for 0: the empty [description] gives the N/A line, the empty
    [softwareName] the [name], the empty [inquiryUrl] without
    [repositoryUrl] N/A, and the [maxNoteTextLength] 0 no line. *)
Theorem falsy_like_absent :
  (forall h m k v,
     truthy v = false ->
     buildHealth h (JObj (<[k:=v]> m)) = buildHealth h (JObj (delete k m))
     /\ renderOnline h (JObj (<[k:=v]> m)) = renderOnline h (JObj (delete k m)))
  /\ (forall h m,
        exists health,
          buildHealth h (JObj m) = Returned health
          /\ softwareName health
             = (if truthy (prop m "softwareName") then prop m "softwareName"
                else if truthy (prop m "name") then prop m "name" else JNull)
          /\ version health
             = (if truthy (prop m "version") then prop m "version" else JNull)
          /\ description health
             = (if truthy (prop m "description") then prop m "description" else JNull)
          /\ adminName health
             = (if truthy (prop m "maintainerName") then prop m "maintainerName" else JNull)
          /\ adminEmail health
             = (if truthy (prop m "maintainerEmail") then prop m "maintainerEmail"
                else JNull)
          /\ contactLink health
             = (if truthy (prop m "inquiryUrl") then prop m "inquiryUrl"
                else if truthy (prop m "repositoryUrl") then prop m "repositoryUrl"
                else JNull))
  /\ (forall h m markup,
        renderOnline h (JObj m) = Returned markup ->
        (truthy (prop m "description") = false ->
         includes "<p><strong>Description:</strong> N/A</p>" markup = true)
        /\ (truthy (prop m "version") = false ->
            includes "<p><strong>Version:</strong> N/A</p>" markup = true)
        /\ (truthy (prop m "maintainerName") = false ->
            includes "<p><strong>Admin:</strong> N/A</p>" markup = true)
        /\ (truthy (prop m "maintainerEmail") = false ->
            includes "<p><strong>Email:</strong> N/A</p>" markup = true)
        /\ (truthy (prop m "inquiryUrl") = false ->
            truthy (prop m "repositoryUrl") = false ->
            includes "<p><strong>Contact:</strong> N/A</p>" markup = true)
        /\ (truthy (prop m "inquiryUrl") = false ->
            truthy (prop m "repositoryUrl") = true ->
            exists text,
              escapeHTML (prop m "repositoryUrl") = Returned text
              /\ includes ("<p><strong>Contact:</strong> " +:+ anchorMarkup text text
                           +:+ "</p>") markup = true)
        /\ (truthy (prop m "maxNoteTextLength") = false ->
            includes "<strong>Max Note Length:</strong>" markup = false))
  /\ (forall m, metaMaxLength (JObj (<["maxNoteTextLength" := JNum "0"]> m)) = Returned "")
  /\ (forall h m,
        exists health,
          buildHealth h (JObj (<["description" := JStr ""]> m)) = Returned health
          /\ descHtml health = Returned "<p><strong>Description:</strong> N/A</p>")
  /\ (forall h m,
        m !! "name" = Some (JStr "Misskey") ->
        exists health,
          buildHealth h (JObj (<["softwareName" := JStr ""]> m)) = Returned health
          /\ softwareName health = JStr "Misskey")
  /\ (forall h m,
        m !! "repositoryUrl" = None ->
        exists health,
          buildHealth h (JObj (<["inquiryUrl" := JStr ""]> m)) = Returned health
          /\ contactLinkHtml health = Returned "N/A").
Proof.
  split; [| split; [| split; [| split; [| split; [| split]]]]].
  - intros h m k v Hv. split.
    + rewrite !buildHealth_obj. f_equal. apply healthOf_ext. intros k'.
      by apply prop_insert_falsy.
    + apply renderOnline_ext. intros k' _. by apply prop_insert_falsy.
  - intros h m. exists (healthOf h m). split; [apply buildHealth_obj |].
    unfold healthOf, or_.
    cbn [softwareName version description adminName adminEmail contactLink].
    by repeat split.
  - intros h m markup [Hr ->]%renderOnline_returned.
    destruct (markupOf_health_lines h m) as (_ & Lv & La & Le).
    pose proof (markupOf_contact_line h m) as Lc.
    pose proof (markupOf_description_line h m) as Ld.
    unfold contactText, descText, healthOf, or_ in Lv, La, Le, Lc, Ld.
    cbn [description contactLink] in Lc, Ld.
    split; [| split; [| split; [| split; [| split; [| split]]]]].
    + intros H. by rewrite H in Ld.
    + intros H. by rewrite H in Lv.
    + intros H. by rewrite H in La.
    + intros H. by rewrite H in Le.
    + intros Hi Hrepo. by rewrite Hi, Hrepo in Lc.
    + intros Hi Hrepo. rewrite Hi, Hrepo, Hrepo in Lc.
      exists (escapedText (prop m "repositoryUrl")). split; [| exact Lc].
      assert (printable (prop m "repositoryUrl") = true) as Hp.
      { unfold renders, healthOf, or_ in Hr. cbn [contactLink] in Hr.
        rewrite Hi, Hrepo in Hr. repeat (apply andb_prop in Hr as [Hr ?]). assumption. }
      by rewrite escapeHTML_text, Hp.
    + intros H. destruct (markupOf_optional_lines h m) as (_ & _ & _ & _ & Hm & _).
      by rewrite Hm.
  - intros m. unfold metaMaxLength, getProp, prop. by rewrite lookup_insert_eq.
  - intros h m. eexists. split; [apply buildHealth_obj |].
    unfold descHtml, healthOf, prop. cbn [description].
    by rewrite lookup_insert_eq.
  - intros h m Hm. eexists. split; [apply buildHealth_obj |].
    unfold healthOf, prop. cbn [softwareName].
    rewrite lookup_insert_eq, lookup_insert_ne, Hm by done. reflexivity.
  - intros h m Hm. eexists. split; [apply buildHealth_obj |].
    unfold contactLinkHtml, healthOf, prop. cbn [contactLink].
    rewrite lookup_insert_eq, lookup_insert_ne, Hm by done. reflexivity.
Qed.

Lemma falsy_like_absent_witness :
  renderOnline "example.com" (JObj (<["description" := JStr ""]> metaFoo))
  = renderOnline "example.com" (JObj (delete "description" metaFoo)).
Proof.
  refine (proj2 (proj1 falsy_like_absent "example.com" metaFoo "description" (JStr "") _)).
  reflexivity.
Defined.

